(** * TM1638 LED / keypad driver: shallow embedding of [TM1638.c]

    The driver bit-bangs a three-wire bus (CLK, DIO, STB) through the STM32
    HAL.  The embedding keeps the shape of the C file: the HAL calls are the
    primitive effects of a small state monad whose state holds the device
    handle ([TM1638], the struct of [TM1638.h]), the chronological log of
    HAL calls made so far, and the levels the DIO pin will show on
    successive [HAL_GPIO_ReadPin] calls.

    Integers are [Z] with the C conversions written out: [u8] is the
    conversion to [uint8_t], [i8] the conversion to [int8_t] (two's
    complement wrap, as on the ARM targets of the HAL). *)

From Stdlib Require Import ZArith Ascii String Bool Lia.
From stdpp Require Import base list.

Local Open Scope Z_scope.

(** ** Machine integers *)

Definition u8 (z : Z) : Z := z mod 256.
Definition i8 (z : Z) : Z := (z + 128) mod 256 - 128.

(** C truth value of an integer expression. *)
Definition c_true (z : Z) : bool := negb (z =? 0).

(** ** The HAL *)

Inductive GPIO_PinState := GPIO_PIN_RESET | GPIO_PIN_SET.
Inductive GPIO_Mode := GPIO_MODE_INPUT | GPIO_MODE_OUTPUT_PP.
Inductive GPIO_Pull := GPIO_NOPULL | GPIO_PULLUP.

Definition PinState_eqb (a b : GPIO_PinState) : bool :=
  match a, b with
  | GPIO_PIN_RESET, GPIO_PIN_RESET | GPIO_PIN_SET, GPIO_PIN_SET => true
  | _, _ => false
  end.

(** The handle of [TM1638.h]; ports are the addresses of the GPIO blocks. *)
Record TM1638 := mkTM1638 {
  clk_port : Z; clk_pin : Z;
  dio_port : Z; dio_pin : Z;
  stb_port : Z; stb_pin : Z;
  brightness : Z
}.

Definition with_brightness (t : TM1638) (b : Z) : TM1638 :=
  mkTM1638 (clk_port t) (clk_pin t) (dio_port t) (dio_pin t)
           (stb_port t) (stb_pin t) b.

(** One entry of the log per HAL call, in the order the calls are made. *)
Inductive hal_call :=
| WritePin (port pin : Z) (s : GPIO_PinState)
| ReadPin (port pin : Z) (s : GPIO_PinState)
| GpioInit (port pin : Z) (mode : GPIO_Mode) (pull : GPIO_Pull)
| Delay (ms : Z).

Record world := mkWorld {
  handle : TM1638;            (* the object [tm] points to *)
  calls : list hal_call;      (* HAL calls so far, oldest first *)
  pin_in : nat -> GPIO_PinState; (* level seen by the n-th pin read *)
  reads : nat                 (* number of pin reads so far *)
}.

(** ** State monad *)

Definition M (A : Type) : Type := world -> A * world.

Definition ret {A} (a : A) : M A := fun w => (a, w).
Definition bind {A B} (m : M A) (k : A -> M B) : M B :=
  fun w => let (a, w') := m w in k a w'.

Notation "x <- m ;; k" := (bind m (fun x => k))
  (at level 100, m at next level, right associativity).
Notation "m ;; k" := (bind m (fun _ => k))
  (at level 100, right associativity).

Definition emit (e : hal_call) : M unit :=
  fun w => (tt, mkWorld (handle w) (calls w ++ [e]) (pin_in w) (reads w)).

Definition get_tm : M TM1638 := fun w => (handle w, w).

Definition set_tm_brightness (b : Z) : M unit :=
  fun w => (tt, mkWorld (with_brightness (handle w) b) (calls w)
                        (pin_in w) (reads w)).

Definition HAL_GPIO_WritePin (port pin : Z) (s : GPIO_PinState) : M unit :=
  emit (WritePin port pin s).

Definition HAL_GPIO_ReadPin (port pin : Z) : M GPIO_PinState :=
  fun w =>
    let s := pin_in w (reads w) in
    (s, mkWorld (handle w) (calls w ++ [ReadPin port pin s]) (pin_in w)
                (S (reads w))).

Definition HAL_GPIO_Init (port pin : Z) (mode : GPIO_Mode) (pull : GPIO_Pull)
  : M unit := emit (GpioInit port pin mode pull).

Definition HAL_Delay (ms : Z) : M unit := emit (Delay ms).

(** ** Constants of [TM1638.c] *)

Definition CMD_DATA_SET_AUTO_INC : Z := 0x40.
Definition CMD_DATA_READ : Z := 0x42.
Definition CMD_ADDRESS_SET : Z := 0xC0.
Definition CMD_DISPLAY_CTRL : Z := 0x80.
Definition DISPLAY_ON_MASK : Z := 0x08.
Definition DISPLAY_BRIGHTNESS_MASK : Z := 0x07.

(** ** GPIO control *)

Definition tm1638_sdo_high : M unit :=
  tm <- get_tm ;; HAL_GPIO_WritePin (dio_port tm) (dio_pin tm) GPIO_PIN_SET.
Definition tm1638_sdo_low : M unit :=
  tm <- get_tm ;; HAL_GPIO_WritePin (dio_port tm) (dio_pin tm) GPIO_PIN_RESET.
Definition tm1638_stb_high : M unit :=
  tm <- get_tm ;; HAL_GPIO_WritePin (stb_port tm) (stb_pin tm) GPIO_PIN_SET.
Definition tm1638_stb_low : M unit :=
  tm <- get_tm ;; HAL_GPIO_WritePin (stb_port tm) (stb_pin tm) GPIO_PIN_RESET.
Definition tm1638_clk_high : M unit :=
  tm <- get_tm ;; HAL_GPIO_WritePin (clk_port tm) (clk_pin tm) GPIO_PIN_SET.
Definition tm1638_clk_low : M unit :=
  tm <- get_tm ;; HAL_GPIO_WritePin (clk_port tm) (clk_pin tm) GPIO_PIN_RESET.

(** ** Communication protocol *)

Definition tm1638_start_transmission : M unit := tm1638_stb_low.
Definition tm1638_end_transmission : M unit := tm1638_stb_high.

(** The [for] loop of [tm1638_send_data]; [n] iterations remain. *)
Fixpoint send_data_loop (n : nat) (data : Z) : M unit :=
  match n with
  | O => ret tt
  | S n' =>
      tm1638_clk_low ;;
      (if c_true (Z.land data 0x01) then tm1638_sdo_high else tm1638_sdo_low) ;;
      let data := u8 (Z.shiftr data 1) in
      tm1638_clk_high ;;
      send_data_loop n' data
  end.

Definition tm1638_send_data (data : Z) : M unit := send_data_loop 8 data.

Definition tm1638_send_command (cmd : Z) : M unit :=
  tm1638_start_transmission ;;
  tm1638_send_data cmd ;;
  tm1638_end_transmission.

(** A body run [n] times with nothing carried between the iterations. *)
Fixpoint repeat_M (n : nat) (body : M unit) : M unit :=
  match n with
  | O => ret tt
  | S n' => body ;; repeat_M n' body
  end.

(** ** Segment font *)

Local Open Scope char_scope.

Definition char_to_segment_code (c : ascii) : Z :=
  match c with
  (* Digits *)
  | "0" => 0x3f
  | "1" => 0x06
  | "2" => 0x5b
  | "3" => 0x4f
  | "4" => 0x66
  | "5" => 0x6d
  | "6" => 0x7d
  | "7" => 0x07
  | "8" => 0x7f
  | "9" => 0x6f
  (* Letters (uppercase) *)
  | "A" => 0x77
  | "B" => 0x7f
  | "C" => 0x39
  | "D" => 0x3f
  | "E" => 0x79
  | "F" => 0x71
  | "G" => 0x7d
  | "H" => 0x76
  | "I" => 0x06
  | "J" => 0x0e
  | "L" => 0x38
  | "O" => 0x3f
  | "P" => 0x73
  | "S" => 0x6d
  | "U" => 0x3e
  (* Letters (lowercase) *)
  | "a" => 0x5f
  | "b" => 0x7c
  | "c" => 0x58
  | "d" => 0x5e
  | "f" => 0x71
  | "g" => 0x6f
  | "h" => 0x74
  | "i" => 0x04
  | "n" => 0x54
  | "o" => 0x5c
  | "r" => 0x50
  | "t" => 0x78
  | "u" => 0x1c
  | "y" => 0x6e
  (* Symbols *)
  | " " => 0x00
  | "_" => 0x08
  | "-" => 0x40
  | _ => 0x00
  end.

Local Close Scope char_scope.

(** ** Public functions *)

(** [position < 1 || position > 8] *)
Definition invalid_position (position : Z) : bool :=
  (position <? 1) || (position >? 8).

(** [CMD_ADDRESS_SET + (2 * (position - 1))], stored in a [uint8_t]:
    the address computed by [tm1638_set_segment]. *)
Definition segment_address (position : Z) : Z :=
  u8 (CMD_ADDRESS_SET + (2 * (position - 1))).

(** [CMD_ADDRESS_SET + (2 * position) - 1], stored in a [uint8_t]:
    the address computed by [tm1638_set_led]. *)
Definition led_address (position : Z) : Z :=
  u8 (CMD_ADDRESS_SET + (2 * position) - 1).

Definition tm1638_set_segment (position data : Z) : M unit :=
  if invalid_position position then ret tt
  else
    let address := segment_address position in
    tm1638_start_transmission ;;
    tm1638_send_data address ;;
    tm1638_send_data data ;;
    tm1638_end_transmission.

Definition tm1638_set_led (position : Z) (on : bool) : M unit :=
  if invalid_position position then ret tt
  else
    let address := led_address position in
    tm1638_start_transmission ;;
    tm1638_send_data address ;;
    tm1638_send_data (if on then 0x01 else 0x00) ;;
    tm1638_end_transmission.

Definition tm1638_set_brightness (brightness : Z) : M unit :=
  let brightness := if brightness >? 7 then 7 else brightness in
  set_tm_brightness brightness ;;
  let command :=
    u8 (Z.lor (Z.lor CMD_DISPLAY_CTRL DISPLAY_ON_MASK) brightness) in
  tm1638_send_command command.

Definition tm1638_display_clear : M unit :=
  tm1638_send_command CMD_DATA_SET_AUTO_INC ;;
  tm1638_start_transmission ;;
  tm1638_send_data CMD_ADDRESS_SET ;;
  repeat_M 16 (tm1638_send_data 0x00) ;;
  tm1638_end_transmission.

Definition tm1638_init (brightness0 : Z) : M unit :=
  set_tm_brightness (Z.land brightness0 DISPLAY_BRIGHTNESS_MASK) ;;
  tm1638_display_clear ;;
  tm <- get_tm ;;
  tm1638_set_brightness (brightness tm).

Definition tm1638_display_char (position : Z) (c : ascii) (dot : bool)
  : M unit :=
  if invalid_position position then ret tt
  else
    let hex_code := char_to_segment_code c in
    let hex_code := if dot then u8 (Z.lor hex_code 0x80) else hex_code in
    tm1638_set_segment position hex_code.

(** [strlen]: the list is the memory at [str]; the bytes before the first
    NUL are the string, and the end of the list stands for the terminator.
    ([size_t] is 32 bits wide; no string reaches that length.) *)
Fixpoint strlen (str : list ascii) : Z :=
  match str with
  | [] => 0
  | c :: rest => if Ascii.eqb c Ascii.zero then 0 else 1 + strlen rest
  end.

(** [str[i]] and [dots[i]] as reads of the arrays. *)
Definition char_at (str : list ascii) (i : Z) : ascii :=
  nth (Z.to_nat i) str Ascii.zero.
Definition flag_at (dots : list bool) (i : Z) : bool :=
  nth (Z.to_nat i) dots false.

(** The locals of [tm1638_display_txt] that the parsing loop changes. *)
Record txt_locals := mkTxt {
  str_idx : Z;
  buf_idx : Z;
  display_buf : list ascii;
  dots : list bool
}.

(** [str_idx >= 0 && buf_idx >= 0] *)
Definition txt_cond (l : txt_locals) : bool :=
  (0 <=? str_idx l) && (0 <=? buf_idx l).

(** A string literal as the bytes before its terminator. *)
Definition text (s : string) : list ascii := list_ascii_of_string s.

(** One pass through the body of the [while] loop. *)
Definition txt_body (str : list ascii) (l : txt_locals) : txt_locals :=
  if Ascii.eqb (char_at str (str_idx l)) "."%char then
    let dots' :=
      if buf_idx l <? 7
      then <[Z.to_nat (buf_idx l + 1) := true]> (dots l)
      else dots l in
    mkTxt (i8 (str_idx l - 1)) (buf_idx l) (display_buf l) dots'
  else
    let buf' :=
      <[Z.to_nat (buf_idx l) := char_at str (str_idx l)]> (display_buf l) in
    mkTxt (i8 (str_idx l - 1)) (i8 (buf_idx l - 1)) buf' (dots l).

(** The [while] loop, cut off after [fuel] passes. *)
Fixpoint txt_loop (fuel : nat) (str : list ascii) (l : txt_locals)
  : txt_locals :=
  match fuel with
  | O => l
  | S fuel' => if txt_cond l then txt_loop fuel' str (txt_body str l) else l
  end.

(** The locals when the [while] loop is left.  [str_idx] is an [int8_t], at
    most 127 on entry, and every pass lowers it by one: 128 passes are
    enough ([txt_parse_exits]). *)
Definition txt_parse (str : list ascii) : txt_locals :=
  let display_buf :=
    [" "; " "; " "; " "; " "; " "; " "; " "; Ascii.zero]%char in
  let dots := [false; false; false; false; false; false; false; false] in
  let len := i8 (strlen str) in
  let str_idx := i8 (len - 1) in
  let buf_idx := 7 in
  txt_loop 128 str (mkTxt str_idx buf_idx display_buf dots).

(** The display loop: [n] iterations remain, [i] is the loop counter. *)
Fixpoint txt_show (n : nat) (i : Z) (l : txt_locals) : M unit :=
  match n with
  | O => ret tt
  | S n' =>
      tm1638_display_char (u8 (i + 1)) (char_at (display_buf l) i)
                          (flag_at (dots l) i) ;;
      txt_show n' (u8 (i + 1)) l
  end.

Definition tm1638_display_txt (str : list ascii) : M unit :=
  txt_show 8 0 (txt_parse str).

(** ** Key scan *)

Definition u32 (z : Z) : Z := z mod 2 ^ 32.

(** The 32-bit read loop of [tm1638_scan_buttons]: [n] iterations remain,
    [i] is the loop counter. *)
Fixpoint scan_loop (n : nat) (i : Z) (raw_key_data : Z) : M Z :=
  match n with
  | O => ret raw_key_data
  | S n' =>
      tm1638_clk_low ;;
      tm <- get_tm ;;
      s <- HAL_GPIO_ReadPin (dio_port tm) (dio_pin tm) ;;
      let raw_key_data :=
        if PinState_eqb s GPIO_PIN_SET
        then u32 (Z.lor raw_key_data (u32 (Z.shiftl 1 i)))
        else raw_key_data in
      tm1638_clk_high ;;
      scan_loop n' (i8 (i + 1)) raw_key_data
  end.

(** The eight [if] statements that turn the raw scan data into the mask of
    pressed keys. *)
Definition decode_keys (raw_key_data : Z) : Z :=
  let pressed_keys := 0 in
  let pressed_keys :=
    if c_true (Z.land raw_key_data (Z.shiftl 1 1))
    then u8 (Z.lor pressed_keys (Z.shiftl 1 0)) else pressed_keys in
  let pressed_keys :=
    if c_true (Z.land raw_key_data (Z.shiftl 1 9))
    then u8 (Z.lor pressed_keys (Z.shiftl 1 1)) else pressed_keys in
  let pressed_keys :=
    if c_true (Z.land raw_key_data (Z.shiftl 1 17))
    then u8 (Z.lor pressed_keys (Z.shiftl 1 2)) else pressed_keys in
  let pressed_keys :=
    if c_true (Z.land raw_key_data (Z.shiftl 1 25))
    then u8 (Z.lor pressed_keys (Z.shiftl 1 3)) else pressed_keys in
  let pressed_keys :=
    if c_true (Z.land raw_key_data (Z.shiftl 1 5))
    then u8 (Z.lor pressed_keys (Z.shiftl 1 4)) else pressed_keys in
  let pressed_keys :=
    if c_true (Z.land raw_key_data (Z.shiftl 1 13))
    then u8 (Z.lor pressed_keys (Z.shiftl 1 5)) else pressed_keys in
  let pressed_keys :=
    if c_true (Z.land raw_key_data (Z.shiftl 1 21))
    then u8 (Z.lor pressed_keys (Z.shiftl 1 6)) else pressed_keys in
  let pressed_keys :=
    if c_true (Z.land raw_key_data (Z.shiftl 1 29))
    then u8 (Z.lor pressed_keys (Z.shiftl 1 7)) else pressed_keys in
  pressed_keys.

Definition tm1638_scan_buttons : M Z :=
  let raw_key_data := 0 in
  tm1638_start_transmission ;;
  tm1638_send_data CMD_DATA_READ ;;
  tm <- get_tm ;;
  HAL_GPIO_Init (dio_port tm) (dio_pin tm) GPIO_MODE_INPUT GPIO_PULLUP ;;
  raw_key_data <- scan_loop 32 0 raw_key_data ;;
  tm1638_end_transmission ;;
  tm <- get_tm ;;
  HAL_GPIO_Init (dio_port tm) (dio_pin tm) GPIO_MODE_OUTPUT_PP GPIO_NOPULL ;;
  ret (decode_keys raw_key_data).

(** ** Blocking key read

    The two polling loops have no bound in the C code.  The model cuts
    each of them off after [fuel] polls and answers [None] when a loop is
    still running at that point. *)

(** [while ((buttons = tm1638_scan_buttons(tm)) == 0) HAL_Delay(20);] *)
Fixpoint wait_press (fuel : nat) (w : world) : option (Z * world) :=
  match fuel with
  | O => None
  | S fuel' =>
      let (buttons, w1) := tm1638_scan_buttons w in
      if buttons =? 0
      then wait_press fuel' (snd (HAL_Delay 20 w1))
      else Some (buttons, w1)
  end.

(** [while (tm1638_scan_buttons(tm) != 0) HAL_Delay(20);] *)
Fixpoint wait_release (fuel : nat) (w : world) : option world :=
  match fuel with
  | O => None
  | S fuel' =>
      let (b, w1) := tm1638_scan_buttons w in
      if negb (b =? 0)
      then wait_release fuel' (snd (HAL_Delay 20 w1))
      else Some w1
  end.

(** The conversion loop: [Some k] when the loop returns [k] from its body,
    [None] when it runs to its end. *)
Fixpoint key_loop (n : nat) (i : Z) (buttons : Z) : option Z :=
  match n with
  | O => None
  | S n' =>
      if c_true (Z.land (Z.shiftr buttons i) 1)
      then Some (u8 (i + 1))
      else key_loop n' (u8 (i + 1)) buttons
  end.

Definition tm1638_read_key_blocking (fuel : nat) (w : world)
  : option (Z * world) :=
  match wait_press fuel w with
  | None => None
  | Some (buttons, w1) =>
      match wait_release fuel w1 with
      | None => None
      | Some w2 =>
          match key_loop 8 0 buttons with
          | Some k => Some (k, w2)
          | None => Some (0, w2)   (* the trailing [return 0] *)
          end
      end
  end.

(** ** The public interface as data *)

Inductive api_call :=
| Call_init (brightness : Z)
| Call_set_brightness (brightness : Z)
| Call_display_clear
| Call_display_char (position : Z) (c : ascii) (dot : bool)
| Call_display_txt (str : list ascii)
| Call_set_led (position : Z) (on : bool)
| Call_set_segment (position data : Z)
| Call_scan_buttons
| Call_read_key_blocking (fuel : nat).

(** World after a call, [None] when the call is still polling. *)
Definition run_call (c : api_call) (w : world) : option world :=
  match c with
  | Call_init b => Some (snd (tm1638_init b w))
  | Call_set_brightness b => Some (snd (tm1638_set_brightness b w))
  | Call_display_clear => Some (snd (tm1638_display_clear w))
  | Call_display_char p c dot => Some (snd (tm1638_display_char p c dot w))
  | Call_display_txt str => Some (snd (tm1638_display_txt str w))
  | Call_set_led p on => Some (snd (tm1638_set_led p on w))
  | Call_set_segment p d => Some (snd (tm1638_set_segment p d w))
  | Call_scan_buttons => Some (snd (tm1638_scan_buttons w))
  | Call_read_key_blocking fuel =>
      match tm1638_read_key_blocking fuel w with
      | Some (_, w') => Some w'
      | None => None
      end
  end.

(** Arguments of the C types: [uint8_t] for positions, data and
    brightness. *)
Definition is_u8 (z : Z) : Prop := 0 <= z <= 255.

Definition well_typed (c : api_call) : Prop :=
  match c with
  | Call_init b | Call_set_brightness b => is_u8 b
  | Call_display_char p _ _ | Call_set_led p _ => is_u8 p
  | Call_set_segment p d => is_u8 p /\ is_u8 d
  | _ => True
  end.

(** ** The bus as the chip sees it

    An observer of the HAL log, used to state what a call transmitted: the
    chip opens a frame when STB falls, shifts DIO in on every rising edge of
    CLK while the frame is open, and closes the frame when STB rises.  The
    bits of a frame are grouped into bytes, least significant bit first. *)

Inductive line := STB | CLK | DIO.

Definition line_of (tm : TM1638) (port pin : Z) : option line :=
  if (port =? stb_port tm) && (pin =? stb_pin tm) then Some STB
  else if (port =? clk_port tm) && (pin =? clk_pin tm) then Some CLK
  else if (port =? dio_port tm) && (pin =? dio_pin tm) then Some DIO
  else None.

(** The three lines of a handle are wired to three different pins. *)
Definition lines_distinct (tm : TM1638) : Prop :=
  (stb_port tm, stb_pin tm) <> (clk_port tm, clk_pin tm) /\
  (stb_port tm, stb_pin tm) <> (dio_port tm, dio_pin tm) /\
  (clk_port tm, clk_pin tm) <> (dio_port tm, dio_pin tm).

Fixpoint bits_value (bits : list bool) : Z :=
  match bits with
  | [] => 0
  | b :: rest => Z.b2z b + 2 * bits_value rest
  end.

Fixpoint bytes_of_bits (bits : list bool) : list Z :=
  match bits with
  | b0 :: b1 :: b2 :: b3 :: b4 :: b5 :: b6 :: b7 :: rest =>
      bits_value [b0; b1; b2; b3; b4; b5; b6; b7] :: bytes_of_bits rest
  | _ => []
  end.

Record chip := mkChip {
  in_frame : bool;
  clk_level : GPIO_PinState;
  dio_level : GPIO_PinState;
  shifted : list bool;        (* bits clocked in during the open frame *)
  frames : list (list Z)      (* closed frames, oldest first *)
}.

Definition idle_chip : chip :=
  mkChip false GPIO_PIN_SET GPIO_PIN_RESET [] [].

Definition line_write (c : chip) (l : line) (s : GPIO_PinState) : chip :=
  match l, s with
  | STB, GPIO_PIN_RESET =>
      mkChip true (clk_level c) (dio_level c) [] (frames c)
  | STB, GPIO_PIN_SET =>
      if in_frame c
      then mkChip false (clk_level c) (dio_level c) []
                  (frames c ++ [bytes_of_bits (shifted c)])
      else c
  | CLK, GPIO_PIN_SET =>
      if in_frame c && PinState_eqb (clk_level c) GPIO_PIN_RESET
      then mkChip true GPIO_PIN_SET (dio_level c)
                  (shifted c ++ [PinState_eqb (dio_level c) GPIO_PIN_SET])
                  (frames c)
      else mkChip (in_frame c) GPIO_PIN_SET (dio_level c) (shifted c)
                  (frames c)
  | CLK, GPIO_PIN_RESET =>
      mkChip (in_frame c) GPIO_PIN_RESET (dio_level c) (shifted c) (frames c)
  | DIO, _ =>
      mkChip (in_frame c) (clk_level c) s (shifted c) (frames c)
  end.

Definition chip_step (tm : TM1638) (c : chip) (e : hal_call) : chip :=
  match e with
  | WritePin port pin s =>
      match line_of tm port pin with
      | Some l => line_write c l s
      | None => c
      end
  | _ => c
  end.

Definition chip_run (tm : TM1638) (c : chip) (evs : list hal_call) : chip :=
  fold_left (chip_step tm) evs c.

(** The frames an idle chip receives from a stretch of the log. *)
Definition wire_frames (tm : TM1638) (evs : list hal_call) : list (list Z) :=
  frames (chip_run tm idle_chip evs).

(** The HAL calls a computation adds to the log of [w]. *)
Definition sent {A} (m : M A) (w : world) : list hal_call :=
  drop (length (calls w)) (calls (snd (m w))).

(** What the chip receives from a computation started in [w]. *)
Definition transmitted {A} (m : M A) (w : world) : list (list Z) :=
  wire_frames (handle w) (sent m w).

(** ** What the write-only calls append to the log *)

Definition logged (w : world) (evs : list hal_call) : world :=
  mkWorld (handle w) (calls w ++ evs) (pin_in w) (reads w).

Definition level_of (b : bool) : GPIO_PinState :=
  if b then GPIO_PIN_SET else GPIO_PIN_RESET.

Definition bit_events (tm : TM1638) (b : bool) : list hal_call :=
  [ WritePin (clk_port tm) (clk_pin tm) GPIO_PIN_RESET;
    WritePin (dio_port tm) (dio_pin tm) (level_of b);
    WritePin (clk_port tm) (clk_pin tm) GPIO_PIN_SET ].

(** The bits of a byte in the order [tm1638_send_data] puts them on DIO. *)
Fixpoint bits_of (n : nat) (data : Z) : list bool :=
  match n with
  | O => []
  | S n' => c_true (Z.land data 0x01) :: bits_of n' (u8 (Z.shiftr data 1))
  end.

Definition byte_events (tm : TM1638) (data : Z) : list hal_call :=
  concat (map (bit_events tm) (bits_of 8 data)).

Definition frame_events (tm : TM1638) (bytes : list Z) : list hal_call :=
  WritePin (stb_port tm) (stb_pin tm) GPIO_PIN_RESET
  :: concat (map (byte_events tm) bytes)
  ++ [WritePin (stb_port tm) (stb_pin tm) GPIO_PIN_SET].

(** ** Definitions used in the statements *)

(** A board used for the concrete runs below: the three lines on pins 5, 6
    and 7 of GPIOA, nothing logged yet. *)
Definition board : TM1638 :=
  mkTM1638 0x40020000 0x0020 0x40020000 0x0040 0x40020000 0x0080 0.

Definition power_on (pins : nat -> GPIO_PinState) : world :=
  mkWorld board [] pins 0.

Definition released : nat -> GPIO_PinState := fun _ => GPIO_PIN_RESET.

Definition keeps_handle {A} (m : M A) : Prop :=
  forall w, handle (snd (m w)) = handle w.

Definition brightness_ok (w : world) : Prop :=
  0 <= brightness (handle w) <= 7.

(** The raw bit that feeds each bit of the key mask, in mask order. *)
Definition key_positions : list Z := [1; 9; 17; 25; 5; 13; 21; 29].

(** [decode_keys] on the eight tests it makes. *)
Definition mask_of (b0 b1 b2 b3 b4 b5 b6 b7 : bool) : Z :=
  bits_value [b0; b1; b2; b3; b4; b5; b6; b7].

(** The level of DIO at the [k]-th of the reads that follow [w]. *)
Definition sample (w : world) (k : Z) : bool :=
  PinState_eqb (pin_in w (reads w + Z.to_nat k)) GPIO_PIN_SET.

(** The segment byte [tm1638_display_char] hands to [tm1638_set_segment]. *)
Definition cell_byte (c : ascii) (dot : bool) : Z :=
  let hex_code := char_to_segment_code c in
  if dot then u8 (Z.lor hex_code 0x80) else hex_code.

(** The register write for cell [i] (0..7) of the parsed text. *)
Definition cell_frame (l : txt_locals) (i : Z) : list Z :=
  [segment_address (i + 1);
   cell_byte (char_at (display_buf l) i) (flag_at (dots l) i)].

(** A dot-free text of 129 characters that ends in "23456789". *)
Definition overlong : list ascii := repeat "1"%char 121 ++ text "23456789".

(** Keys S1 and S2 held down during the first scan, nothing afterwards:
    raw bits 1 and 9 of the first 32 samples are set. *)
Definition two_keys : nat -> GPIO_PinState :=
  fun n => if (n =? 1)%nat || (n =? 9)%nat then GPIO_PIN_SET
           else GPIO_PIN_RESET.

(** Key S3 alone held down during the first scan (raw bit 17). *)
Definition key_S3 : nat -> GPIO_PinState :=
  fun n => if (n =? 17)%nat then GPIO_PIN_SET else GPIO_PIN_RESET.

(** The world at the next poll of a polling loop: one scan, one delay. *)
Definition next_poll (w : world) : world :=
  snd (HAL_Delay 20 (snd (tm1638_scan_buttons w))).

(** What the conversion loop must answer for a mask: the 1-based position
    of its lowest set bit. *)
Definition key_check (buttons : Z) : bool :=
  match key_loop 8 0 buttons with
  | Some k =>
      (1 <=? k) && (k <=? 8) && Z.testbit buttons (k - 1) &&
      forallb (fun j => negb (Z.testbit buttons j)) (seqZ 0 (k - 1))
  | None => false
  end.

(** A text with no dot in it (and no NUL, so that the list is the string). *)
Definition plain (str : list ascii) : Prop :=
  Forall (fun c => c <> Ascii.zero /\ c <> "."%char) str.

(** The locals after [j] passes of the parsing loop over a plain text. *)
Definition txt_after (str : list ascii) (j : nat) : txt_locals :=
  mkTxt (Z.of_nat (length str) - 1 - Z.of_nat j) (7 - Z.of_nat j)
        (repeat " "%char (8 - j) ++ drop (length str - j) str ++ [Ascii.zero])
        (repeat false 8).

(** Number of characters of a text that are not dots. *)
Fixpoint visible (str : list ascii) : nat :=
  match str with
  | [] => 0
  | c :: rest => (if Ascii.eqb c "." then 0 else 1) + visible rest
  end.

(** Invariant of the parsing loop: the cells up to [buf_idx] are blank, and
    no more cells are filled than there are visible characters behind
    [str_idx]. *)
Definition txt_inv (str : list ascii) (l : txt_locals) : Prop :=
  -1 <= buf_idx l <= 7 /\
  str_idx l <= 127 /\
  str_idx l < Z.of_nat (length str) /\
  (forall i, 0 <= i <= buf_idx l -> char_at (display_buf l) i = " "%char) /\
  7 - buf_idx l + Z.of_nat (visible (take (Z.to_nat (str_idx l + 1)) str))
    <= Z.of_nat (visible str).

(** ** Definitions used in the further properties *)

(** The three pin writes of one clock pulse that carries the level [s]. *)
Definition clock_pulse (tm : TM1638) (s : GPIO_PinState) : list hal_call :=
  [ WritePin (clk_port tm) (clk_pin tm) GPIO_PIN_RESET;
    WritePin (dio_port tm) (dio_pin tm) s;
    WritePin (clk_port tm) (clk_pin tm) GPIO_PIN_SET ].

(** The frames [tm1638_display_clear] is to send. *)
Definition clear_frames : list (list Z) :=
  [[CMD_DATA_SET_AUTO_INC]; CMD_ADDRESS_SET :: repeat 0 16].

(** The eight characters a dot-free text leaves on the display: the text
    cut to its last eight characters, padded with blanks on the left. *)
Definition right_aligned (str : list ascii) : list ascii :=
  repeat " "%char (8 - length str) ++ drop (length str - 8) str.

(** Invariant of the parsing loop on the dot flags: no flag is set on a
    cell the loop has not filled yet, and none on cell 0. *)
Definition dots_inv (l : txt_locals) : Prop :=
  forall i, 0 <= i <= Z.max (buf_idx l) 0 -> flag_at (dots l) i = false.

(** The part of the locals of [tm1638_display_txt] that reaches the
    display: the next cell to fill, the characters and the dot flags. *)
Record cells := mkCells {
  c_idx : Z;
  c_buf : list ascii;
  c_dots : list bool
}.

Definition cells_of (l : txt_locals) : cells :=
  mkCells (buf_idx l) (display_buf l) (dots l).

(** The cells before the parsing loop. *)
Definition blank_cells : cells :=
  mkCells 7 [" "; " "; " "; " "; " "; " "; " "; " "; Ascii.zero]%char
          [false; false; false; false; false; false; false; false].

(** What one pass of the parsing loop does to the cells when the character
    under [str_idx] is [c]. *)
Definition put (c : ascii) (s : cells) : cells :=
  if Ascii.eqb c "."%char then
    mkCells (c_idx s) (c_buf s)
            (if c_idx s <? 7 then <[Z.to_nat (c_idx s + 1) := true]> (c_dots s)
             else c_dots s)
  else
    mkCells (i8 (c_idx s - 1)) (<[Z.to_nat (c_idx s) := c]> (c_buf s))
            (c_dots s).

(** The parsing loop as a fold over the characters from the last one to the
    first, left when no cell is free. *)
Fixpoint lay (rs : list ascii) (s : cells) : cells :=
  match rs with
  | [] => s
  | c :: rest => if 0 <=? c_idx s then lay rest (put c s) else s
  end.

(** A text that holds no NUL: the list is the whole C string. *)
Definition no_nul (str : list ascii) : Prop :=
  Forall (fun c => c <> Ascii.zero) str.

(** ** A monitor of the bus discipline

    The state of the three lines as far as the protocol cares: whether DIO
    is configured as an input, whether a frame is open (STB low), whether
    the clock is low.  [bus_step] answers [None] when a HAL call breaks
    the discipline: a frame opened twice or closed while none is open or
    while the clock is low, a clock edge or a data change outside a frame,
    DIO driven while it is an input or while the clock is high, DIO
    sampled while it is an output or while the clock is high, a delay
    inside a frame, a pin that is none of the three lines. *)

Record bus := mkBus {
  dio_input : bool;
  strobe_low : bool;
  clock_low : bool
}.

Definition bus_step (tm : TM1638) (b : bus) (e : hal_call) : option bus :=
  match e with
  | WritePin port pin s =>
      match line_of tm port pin, s with
      | Some STB, GPIO_PIN_RESET =>
          if strobe_low b then None
          else Some (mkBus (dio_input b) true (clock_low b))
      | Some STB, GPIO_PIN_SET =>
          if strobe_low b && negb (clock_low b)
          then Some (mkBus (dio_input b) false false) else None
      | Some CLK, GPIO_PIN_RESET =>
          if strobe_low b then Some (mkBus (dio_input b) true true) else None
      | Some CLK, GPIO_PIN_SET =>
          if strobe_low b then Some (mkBus (dio_input b) true false) else None
      | Some DIO, _ =>
          if strobe_low b && clock_low b && negb (dio_input b)
          then Some b else None
      | None, _ => None
      end
  | ReadPin port pin _ =>
      match line_of tm port pin with
      | Some DIO =>
          if strobe_low b && clock_low b && dio_input b then Some b else None
      | _ => None
      end
  | GpioInit port pin mode _ =>
      match line_of tm port pin with
      | Some DIO =>
          Some (mkBus (match mode with
                       | GPIO_MODE_INPUT => true
                       | GPIO_MODE_OUTPUT_PP => false
                       end) (strobe_low b) (clock_low b))
      | _ => None
      end
  | Delay _ => if strobe_low b then None else Some b
  end.

Fixpoint bus_run (tm : TM1638) (b : bus) (evs : list hal_call)
  : option bus :=
  match evs with
  | [] => Some b
  | e :: rest =>
      match bus_step tm b e with
      | Some b' => bus_run tm b' rest
      | None => None
      end
  end.

(** The pins a handle names. *)
Definition pins (tm : TM1638) : Z * Z * Z * Z * Z * Z :=
  (clk_port tm, clk_pin tm, dio_port tm, dio_pin tm, stb_port tm, stb_pin tm).

(** A computation that, run on a handle with the pins of [tm] and with the
    bus in state [b1], keeps the discipline, leaves the bus in state [b2]
    and does not change the pins of the handle. *)
Definition obeys {A} (tm : TM1638) (b1 b2 : bus) (m : M A) : Prop :=
  forall w, pins (handle w) = pins tm ->
    pins (handle (snd (m w))) = pins tm /\
    exists evs, calls (snd (m w)) = calls w ++ evs /\
                bus_run tm b1 evs = Some b2.

(** The bus at rest: DIO an output, no frame open, clock high. *)
Definition idle_bus : bus := mkBus false false false.

(** * Proofs *)

(** ** Running the monad *)

Lemma bind_run {A B} (m : M A) (k : A -> M B) w a w' :
  m w = (a, w') -> bind m k w = k a w'.
Proof. intros H. unfold bind. now rewrite H. Qed.

Lemma logged_nil w : logged w [] = w.
Proof. destruct w. unfold logged. simpl. now rewrite app_nil_r. Qed.

Lemma logged_app w a b : logged (logged w a) b = logged w (a ++ b).
Proof. unfold logged. simpl. now rewrite app_assoc. Qed.

Lemma handle_logged w evs : handle (logged w evs) = handle w.
Proof. reflexivity. Qed.

Lemma write_pin_run port pin s w :
  HAL_GPIO_WritePin port pin s w = (tt, logged w [WritePin port pin s]).
Proof. reflexivity. Qed.

Lemma clk_low_run w :
  tm1638_clk_low w =
  (tt, logged w [WritePin (clk_port (handle w)) (clk_pin (handle w))
                          GPIO_PIN_RESET]).
Proof. reflexivity. Qed.

Lemma clk_high_run w :
  tm1638_clk_high w =
  (tt, logged w [WritePin (clk_port (handle w)) (clk_pin (handle w))
                          GPIO_PIN_SET]).
Proof. reflexivity. Qed.

Lemma stb_low_run w :
  tm1638_start_transmission w =
  (tt, logged w [WritePin (stb_port (handle w)) (stb_pin (handle w))
                          GPIO_PIN_RESET]).
Proof. reflexivity. Qed.

Lemma stb_high_run w :
  tm1638_end_transmission w =
  (tt, logged w [WritePin (stb_port (handle w)) (stb_pin (handle w))
                          GPIO_PIN_SET]).
Proof. reflexivity. Qed.

Lemma sdo_run (b : bool) w :
  (if b then tm1638_sdo_high else tm1638_sdo_low) w =
  (tt, logged w [WritePin (dio_port (handle w)) (dio_pin (handle w))
                          (level_of b)]).
Proof. destruct b; reflexivity. Qed.

Lemma send_data_loop_run n : forall data w,
  send_data_loop n data w =
  (tt, logged w (concat (map (bit_events (handle w)) (bits_of n data)))).
Proof.
  induction n as [|n IH]; intros data w.
  - simpl. unfold ret. now rewrite logged_nil.
  - cbn [send_data_loop bits_of map concat].
    erewrite bind_run by apply clk_low_run.
    erewrite bind_run by apply sdo_run.
    erewrite bind_run by apply clk_high_run.
    rewrite IH, !logged_app, !handle_logged. reflexivity.
Qed.

Lemma send_data_run data w :
  tm1638_send_data data w = (tt, logged w (byte_events (handle w) data)).
Proof. apply send_data_loop_run. Qed.

Lemma send_command_run cmd w :
  tm1638_send_command cmd w = (tt, logged w (frame_events (handle w) [cmd])).
Proof.
  unfold tm1638_send_command.
  erewrite bind_run by apply stb_low_run.
  erewrite bind_run by apply send_data_run.
  rewrite stb_high_run, !logged_app, !handle_logged.
  unfold frame_events. cbn [map concat app].
  rewrite app_nil_r. reflexivity.
Qed.

Lemma send_pair_run a d w :
  (tm1638_start_transmission ;; tm1638_send_data a ;; tm1638_send_data d ;;
   tm1638_end_transmission) w
  = (tt, logged w (frame_events (handle w) [a; d])).
Proof.
  erewrite bind_run by apply stb_low_run.
  erewrite bind_run by apply send_data_run.
  erewrite bind_run by apply send_data_run.
  rewrite stb_high_run, !logged_app, !handle_logged.
  unfold frame_events. cbn [map concat app].
  rewrite app_nil_r, <- !app_assoc. reflexivity.
Qed.

(** ** The observer on frames *)

Lemma bits_value_bits_of n : forall data,
  0 <= data < 256 -> bits_value (bits_of n data) = data mod 2 ^ Z.of_nat n.
Proof.
  induction n as [|n IH]; intros data Hd.
  - simpl. now rewrite Z.mod_1_r.
  - cbn [bits_of bits_value].
    assert (Hs : u8 (Z.shiftr data 1) = data / 2).
    { unfold u8. rewrite Z.shiftr_div_pow2 by lia. change (2 ^ 1) with 2.
      apply Z.mod_small. split; [apply Z.div_pos|apply Z.div_lt_upper_bound]; lia. }
    rewrite Hs, IH.
    2:{ split; [apply Z.div_pos|apply Z.div_lt_upper_bound]; lia. }
    change 1 with (Z.ones 1) at 1. rewrite Z.land_ones by lia.
    change (2 ^ 1) with 2.
    rewrite Nat2Z.inj_succ, Z.pow_succ_r by lia.
    rewrite Z.rem_mul_r by lia.
    assert (Hb : Z.b2z (c_true (data mod 2)) = data mod 2).
    { unfold c_true. pose proof (Z.mod_pos_bound data 2 ltac:(lia)).
      destruct (Z.eqb_spec (data mod 2) 0) as [->|]; simpl; lia. }
    rewrite Hb. reflexivity.
Qed.

Lemma bytes_of_bits_sent bytes :
  Forall is_u8 bytes ->
  bytes_of_bits (concat (map (bits_of 8) bytes)) = bytes.
Proof.
  induction 1 as [|b rest Hb _ IH]; [reflexivity|].
  cbn [map concat].
  change (bits_of 8 b ++ concat (map (bits_of 8) rest)) with
    (let bs := bits_of 8 b in
     nth 0 bs false :: nth 1 bs false :: nth 2 bs false :: nth 3 bs false ::
     nth 4 bs false :: nth 5 bs false :: nth 6 bs false :: nth 7 bs false ::
     concat (map (bits_of 8) rest)).
  cbv zeta. cbn [bytes_of_bits]. rewrite IH. f_equal.
  change (bits_value (bits_of 8 b) = b).
  rewrite bits_value_bits_of by (unfold is_u8 in Hb; lia).
  apply Z.mod_small. unfold is_u8 in Hb. simpl. lia.
Qed.

Lemma chip_run_app tm c a b :
  chip_run tm c (a ++ b) = chip_run tm (chip_run tm c a) b.
Proof. apply fold_left_app. Qed.

Section Observer.
Variable tm : TM1638.
Hypothesis wired : lines_distinct tm.

Lemma line_of_stb : line_of tm (stb_port tm) (stb_pin tm) = Some STB.
Proof. unfold line_of. now rewrite !Z.eqb_refl. Qed.

Lemma line_of_clk : line_of tm (clk_port tm) (clk_pin tm) = Some CLK.
Proof.
  destruct wired as (H1 & _ & _). unfold line_of.
  rewrite !Z.eqb_refl. simpl.
  destruct (Z.eqb_spec (clk_port tm) (stb_port tm)) as [e1|]; [|reflexivity].
  destruct (Z.eqb_spec (clk_pin tm) (stb_pin tm)) as [e2|]; [|reflexivity].
  exfalso. apply H1. now rewrite e1, e2.
Qed.

Lemma line_of_dio : line_of tm (dio_port tm) (dio_pin tm) = Some DIO.
Proof.
  destruct wired as (_ & H2 & H3). unfold line_of.
  rewrite !Z.eqb_refl. simpl.
  destruct (Z.eqb_spec (dio_port tm) (stb_port tm)) as [e1|];
    destruct (Z.eqb_spec (dio_pin tm) (stb_pin tm)) as [e2|];
    destruct (Z.eqb_spec (dio_port tm) (clk_port tm)) as [e3|];
    destruct (Z.eqb_spec (dio_pin tm) (clk_pin tm)) as [e4|];
    simpl; try reflexivity; exfalso;
    first [apply H2; now rewrite e1, e2 | apply H3; now rewrite e3, e4].
Qed.

(** Inside a frame every bit put on the bus is shifted in. *)
Lemma chip_run_bits bits : forall c,
  in_frame c = true ->
  let c' := chip_run tm c (concat (map (bit_events tm) bits)) in
  in_frame c' = true /\ shifted c' = shifted c ++ bits /\
  frames c' = frames c.
Proof.
  induction bits as [|b rest IH]; intros c Hc; cbv zeta.
  - simpl. now rewrite app_nil_r.
  - cbn [map concat]. rewrite chip_run_app.
    set (c1 := chip_run tm c (bit_events tm b)).
    assert (H1 : in_frame c1 = true /\ shifted c1 = shifted c ++ [b] /\
                 frames c1 = frames c).
    { subst c1. unfold chip_run, bit_events. cbn [fold_left chip_step].
      rewrite line_of_clk, line_of_dio. cbn. rewrite Hc. cbn.
      destruct b; auto. }
    destruct H1 as (Ha & Hb & Hf).
    destruct (IH c1 Ha) as (Ha' & Hb' & Hf').
    rewrite Ha', Hb', Hf', Hb, Hf, <- app_assoc. auto.
Qed.

(** A whole frame adds its bytes, as one frame, to what the chip got. *)
Lemma chip_run_frame bytes c :
  Forall is_u8 bytes ->
  let c' := chip_run tm c (frame_events tm bytes) in
  in_frame c' = false /\ frames c' = frames c ++ [bytes].
Proof.
  intros Hb. cbv zeta. unfold frame_events.
  change (?x :: ?l ++ ?r) with ([x] ++ l ++ r).
  rewrite !chip_run_app.
  set (c0 := chip_run tm c [WritePin (stb_port tm) (stb_pin tm) GPIO_PIN_RESET]).
  assert (H0 : in_frame c0 = true /\ shifted c0 = [] /\ frames c0 = frames c).
  { subst c0. unfold chip_run. cbn [fold_left chip_step].
    rewrite line_of_stb. cbn. auto. }
  destruct H0 as (Hi & Hs0 & Hf0).
  assert (E : concat (map (byte_events tm) bytes) =
              concat (map (bit_events tm) (concat (map (bits_of 8) bytes)))).
  { clear. induction bytes as [|b r IH]; [reflexivity|].
    cbn [map concat]. rewrite IH. unfold byte_events.
    now rewrite map_app, concat_app. }
  rewrite E.
  destruct (chip_run_bits (concat (map (bits_of 8) bytes)) c0 Hi)
    as (Ha & Hs & Hf).
  set (c1 := chip_run tm c0 _) in *.
  unfold chip_run. cbn [fold_left chip_step].
  rewrite line_of_stb. cbn [line_write]. rewrite Ha. cbn.
  rewrite Hs, Hf, Hs0, Hf0. cbn [app].
  now rewrite bytes_of_bits_sent.
Qed.

Lemma wire_frames_frame bytes :
  Forall is_u8 bytes -> wire_frames tm (frame_events tm bytes) = [bytes].
Proof.
  intros Hb. unfold wire_frames.
  now destruct (chip_run_frame bytes idle_chip Hb) as (_ & ->).
Qed.
End Observer.

Lemma sent_logged {A} (m : M A) w a evs :
  m w = (a, logged w evs) -> sent m w = evs.
Proof.
  intros H. unfold sent. rewrite H. cbn. apply drop_app_length.
Qed.

(** ** Register writes *)

Lemma set_segment_run p data w :
  1 <= p <= 8 ->
  tm1638_set_segment p data w =
  (tt, logged w (frame_events (handle w) [segment_address p; data])).
Proof.
  intros Hp. unfold tm1638_set_segment, invalid_position.
  replace (p <? 1) with false by lia. replace (p >? 8) with false by lia.
  cbn [orb]. apply send_pair_run.
Qed.

Lemma set_led_run p on w :
  1 <= p <= 8 ->
  tm1638_set_led p on w =
  (tt, logged w (frame_events (handle w)
                   [led_address p; if on then 0x01 else 0x00])).
Proof.
  intros Hp. unfold tm1638_set_led, invalid_position.
  replace (p <? 1) with false by lia. replace (p >? 8) with false by lia.
  cbn [orb]. apply send_pair_run.
Qed.

Lemma segment_address_valid p :
  1 <= p <= 8 -> segment_address p = CMD_ADDRESS_SET + 2 * (p - 1).
Proof.
  intros Hp. unfold segment_address, u8, CMD_ADDRESS_SET.
  apply Z.mod_small. lia.
Qed.

Lemma led_address_valid p :
  1 <= p <= 8 -> led_address p = CMD_ADDRESS_SET + 2 * p - 1.
Proof.
  intros Hp. unfold led_address, u8, CMD_ADDRESS_SET.
  apply Z.mod_small. lia.
Qed.

(** C7: for a position [p] in 1..8, [tm1638_set_segment] addresses register
    [CMD_ADDRESS_SET + 2 * (p - 1)], which is even; [tm1638_set_led]
    addresses the register right after it, [CMD_ADDRESS_SET + 2 * p - 1];
    each call puts exactly that address, followed by the data byte, in one
    frame on the bus; and the eight (segment, LED) pairs taken in order are
    the sixteen registers 0xC0..0xCF, each once. *)
Theorem register_addresses (p data : Z) (on : bool) (w : world) :
  1 <= p <= 8 -> is_u8 data -> lines_distinct (handle w) ->
  segment_address p = CMD_ADDRESS_SET + 2 * (p - 1) /\
  Z.even (segment_address p) = true /\
  led_address p = segment_address p + 1 /\
  led_address p = CMD_ADDRESS_SET + 2 * p - 1 /\
  transmitted (tm1638_set_segment p data) w = [[segment_address p; data]] /\
  transmitted (tm1638_set_led p on) w =
    [[led_address p; if on then 1 else 0]] /\
  flat_map (fun q => [segment_address q; led_address q]) (seqZ 1 8) =
    seqZ CMD_ADDRESS_SET 16 /\
  NoDup (flat_map (fun q => [segment_address q; led_address q]) (seqZ 1 8)).
Proof.
  intros Hp Hd Hw.
  pose proof (segment_address_valid p Hp) as Hs.
  pose proof (led_address_valid p Hp) as Hl.
  assert (Hcover :
    flat_map (fun q => [segment_address q; led_address q]) (seqZ 1 8) =
    seqZ CMD_ADDRESS_SET 16) by (vm_compute; reflexivity).
  repeat split; try assumption.
  - rewrite Hs. unfold CMD_ADDRESS_SET.
    rewrite Z.even_add_mul_2. reflexivity.
  - lia.
  - unfold transmitted.
    rewrite (sent_logged _ _ _ _ (set_segment_run p data w Hp)).
    apply wire_frames_frame; [assumption|].
    repeat constructor; try assumption; unfold is_u8, CMD_ADDRESS_SET in *; lia.
  - unfold transmitted.
    rewrite (sent_logged _ _ _ _ (set_led_run p on w Hp)).
    apply wire_frames_frame; [assumption|].
    repeat constructor; unfold is_u8, CMD_ADDRESS_SET in *; destruct on; lia.
  - rewrite Hcover. apply NoDup_seqZ.
Qed.

Lemma board_wired : lines_distinct board.
Proof. repeat split; discriminate. Defined.

Lemma register_addresses_witness :
  (1 <= 3 <= 8 /\ is_u8 0x5b /\ lines_distinct (handle (power_on released)))
  /\ segment_address 3 = 0xC4 /\ led_address 3 = 0xC5
  /\ transmitted (tm1638_set_segment 3 0x5b) (power_on released)
     = [[0xC4; 0x5b]].
Proof.
  assert (Hp : 1 <= 3 <= 8) by lia.
  assert (Hd : is_u8 0x5b) by (unfold is_u8; lia).
  pose proof (register_addresses 3 0x5b true (power_on released)
                Hp Hd board_wired) as (H1 & _ & H3 & _ & H5 & _).
  split; [exact (conj Hp (conj Hd board_wired))|].
  split; [exact H1|]. split; [rewrite H3, H1; reflexivity|].
  rewrite H5, H1. reflexivity.
Defined.

(** C8: for a position outside 1..8, [tm1638_set_segment], [tm1638_set_led]
    and [tm1638_display_char] return at once: the world they leave is the
    world they were called in (no HAL call is logged, nothing is read, the
    handle is the same), so nothing is sent on the bus either. *)
Theorem invalid_position_noop (p data : Z) (on dot : bool) (c : ascii)
    (w : world) :
  ~ (1 <= p <= 8) ->
  tm1638_set_segment p data w = (tt, w) /\
  tm1638_set_led p on w = (tt, w) /\
  tm1638_display_char p c dot w = (tt, w) /\
  sent (tm1638_set_segment p data) w = [] /\
  sent (tm1638_set_led p on) w = [] /\
  sent (tm1638_display_char p c dot) w = [].
Proof.
  intros Hp.
  assert (Hi : invalid_position p = true).
  { unfold invalid_position. destruct (Z.ltb_spec p 1); [reflexivity|].
    cbn. apply Z.gtb_lt. lia. }
  unfold sent, tm1638_set_segment, tm1638_set_led, tm1638_display_char.
  rewrite Hi. cbn. rewrite drop_all. repeat split.
Qed.

Lemma invalid_position_noop_witness :
  ~ (1 <= 9 <= 8) /\
  tm1638_set_segment 9 0xff (power_on released) = (tt, power_on released) /\
  tm1638_set_led 0 true (power_on released) = (tt, power_on released).
Proof.
  assert (H9 : ~ (1 <= 9 <= 8)) by lia.
  assert (H0 : ~ (1 <= 0 <= 8)) by lia.
  split; [exact H9|]. split.
  - exact (proj1 (invalid_position_noop 9 0xff true false "8" (power_on released) H9)).
  - exact (proj1 (proj2 (invalid_position_noop 0 0 true false "8" (power_on released) H0))).
Defined.

(** ** Brightness *)

Lemma sent_calls {A} (m : M A) w evs :
  calls (snd (m w)) = calls w ++ evs -> sent m w = evs.
Proof. intros H. unfold sent. rewrite H. apply drop_app_length. Qed.

Lemma clamp_is_min b : (if b >? 7 then 7 else b) = Z.min b 7.
Proof. destruct (Z.gtb_spec b 7); lia. Qed.

Lemma display_on_command x :
  0 <= x <= 7 ->
  u8 (Z.lor (Z.lor CMD_DISPLAY_CTRL DISPLAY_ON_MASK) x) = Z.lor 0x88 x /\
  0x88 <= Z.lor 0x88 x <= 0x8F /\
  Z.land (Z.lor 0x88 x) DISPLAY_ON_MASK = DISPLAY_ON_MASK /\
  Z.land (Z.lor 0x88 x) DISPLAY_BRIGHTNESS_MASK = x.
Proof.
  intros Hx.
  assert (E : x = 0 \/ x = 1 \/ x = 2 \/ x = 3 \/ x = 4 \/ x = 5 \/ x = 6 \/
              x = 7) by lia.
  destruct E as [-> | [-> | [-> | [-> | [-> | [-> | [-> | ->]]]]]]];
    vm_compute; intuition discriminate.
Qed.

Lemma set_brightness_run b w :
  tm1638_set_brightness b w =
  tm1638_send_command
    (u8 (Z.lor (Z.lor CMD_DISPLAY_CTRL DISPLAY_ON_MASK) (Z.min b 7)))
    (mkWorld (with_brightness (handle w) (Z.min b 7)) (calls w) (pin_in w)
             (reads w)).
Proof.
  unfold tm1638_set_brightness. rewrite clamp_is_min. reflexivity.
Qed.

(** C6: for every brightness argument [b] (a [uint8_t], so also above 7),
    [tm1638_set_brightness b] is the transmission of the single command
    byte [0x88 | min b 7]: the chip receives one frame holding that one
    byte, whose display-on bit is set and whose low three bits are
    [min b 7]. *)
Theorem set_brightness_command (b : Z) (w : world) :
  is_u8 b -> lines_distinct (handle w) ->
  let cmd := Z.lor 0x88 (Z.min b 7) in
  tm1638_set_brightness b w =
    tm1638_send_command cmd
      (mkWorld (with_brightness (handle w) (Z.min b 7)) (calls w) (pin_in w)
               (reads w)) /\
  transmitted (tm1638_set_brightness b) w = [[cmd]] /\
  Z.land cmd DISPLAY_ON_MASK = DISPLAY_ON_MASK /\
  Z.land cmd DISPLAY_BRIGHTNESS_MASK = Z.min b 7.
Proof.
  intros Hb Hw cmd.
  assert (Hx : 0 <= Z.min b 7 <= 7) by (unfold is_u8 in Hb; lia).
  destruct (display_on_command _ Hx) as (Hc & Hr & Hon & Hlow).
  fold cmd in Hc, Hr, Hon, Hlow.
  rewrite set_brightness_run, Hc. repeat split; try assumption.
  unfold transmitted.
  rewrite (sent_calls _ _ (frame_events (handle w) [cmd])).
  - apply wire_frames_frame; [assumption|].
    repeat constructor; unfold is_u8; lia.
  - rewrite set_brightness_run, Hc, send_command_run. reflexivity.
Qed.

Lemma set_brightness_command_witness :
  (is_u8 200 /\ lines_distinct (handle (power_on released))) /\
  transmitted (tm1638_set_brightness 200) (power_on released) = [[0x8F]].
Proof.
  assert (Hb : is_u8 200) by (unfold is_u8; lia).
  split; [exact (conj Hb board_wired)|].
  exact (proj1 (proj2 (set_brightness_command 200 (power_on released)
                         Hb board_wired))).
Defined.

(** ** Calls that leave the handle alone *)

Lemma keeps_ret {A} (a : A) : keeps_handle (ret a).
Proof. intros w. reflexivity. Qed.

Lemma keeps_bind {A B} (m : M A) (k : A -> M B) :
  keeps_handle m -> (forall a, keeps_handle (k a)) -> keeps_handle (bind m k).
Proof.
  intros Hm Hk w. unfold bind. specialize (Hm w).
  destruct (m w) as [a w1]. cbn in Hm. now rewrite Hk.
Qed.

Lemma keeps_emit e : keeps_handle (emit e).
Proof. intros w. reflexivity. Qed.

Lemma keeps_get_tm : keeps_handle get_tm.
Proof. intros w. reflexivity. Qed.

Lemma keeps_read port pin : keeps_handle (HAL_GPIO_ReadPin port pin).
Proof. intros w. reflexivity. Qed.

Create HintDb handle.
#[local] Hint Resolve keeps_ret keeps_emit keeps_get_tm keeps_read : handle.

Ltac keeps :=
  repeat first
    [ solve [auto with handle]
    | match goal with
      | |- keeps_handle (bind _ _) => apply keeps_bind; [|intros ?]
      | |- keeps_handle (if ?b then _ else _) => destruct b
      | |- keeps_handle (let _ := _ in _) => cbv zeta
      end ].

Lemma keeps_pin_write port pin s : keeps_handle (HAL_GPIO_WritePin port pin s).
Proof. apply keeps_emit. Qed.

Lemma keeps_sdo_high : keeps_handle tm1638_sdo_high.
Proof. unfold tm1638_sdo_high. keeps. Qed.
Lemma keeps_sdo_low : keeps_handle tm1638_sdo_low.
Proof. unfold tm1638_sdo_low. keeps. Qed.
Lemma keeps_stb_high : keeps_handle tm1638_stb_high.
Proof. unfold tm1638_stb_high. keeps. Qed.
Lemma keeps_stb_low : keeps_handle tm1638_stb_low.
Proof. unfold tm1638_stb_low. keeps. Qed.
Lemma keeps_clk_high : keeps_handle tm1638_clk_high.
Proof. unfold tm1638_clk_high. keeps. Qed.
Lemma keeps_clk_low : keeps_handle tm1638_clk_low.
Proof. unfold tm1638_clk_low. keeps. Qed.

#[local] Hint Resolve keeps_pin_write keeps_sdo_high keeps_sdo_low
  keeps_stb_high keeps_stb_low keeps_clk_high keeps_clk_low : handle.

Lemma keeps_start : keeps_handle tm1638_start_transmission.
Proof. apply keeps_stb_low. Qed.
Lemma keeps_end : keeps_handle tm1638_end_transmission.
Proof. apply keeps_stb_high. Qed.

Lemma keeps_send_data data : keeps_handle (tm1638_send_data data).
Proof.
  unfold tm1638_send_data. generalize 8%nat. intros n. revert data.
  induction n as [|n IH]; intros data; cbn [send_data_loop]; keeps.
Qed.

#[local] Hint Resolve keeps_start keeps_end keeps_send_data : handle.

Lemma keeps_send_command cmd : keeps_handle (tm1638_send_command cmd).
Proof. unfold tm1638_send_command. keeps. Qed.

Lemma keeps_repeat n body : keeps_handle body -> keeps_handle (repeat_M n body).
Proof. intros Hb. induction n; cbn [repeat_M]; keeps. Qed.

#[local] Hint Resolve keeps_send_command keeps_repeat : handle.

Lemma keeps_display_clear : keeps_handle tm1638_display_clear.
Proof. unfold tm1638_display_clear. keeps. Qed.

Lemma keeps_set_segment p d : keeps_handle (tm1638_set_segment p d).
Proof. unfold tm1638_set_segment. keeps. Qed.

Lemma keeps_set_led p on : keeps_handle (tm1638_set_led p on).
Proof. unfold tm1638_set_led. keeps. Qed.

#[local] Hint Resolve keeps_display_clear keeps_set_segment keeps_set_led
  : handle.

Lemma keeps_display_char p c dot : keeps_handle (tm1638_display_char p c dot).
Proof. unfold tm1638_display_char. keeps. Qed.

#[local] Hint Resolve keeps_display_char : handle.

Lemma keeps_display_txt str : keeps_handle (tm1638_display_txt str).
Proof.
  unfold tm1638_display_txt. generalize (txt_parse str) 0 8%nat.
  intros l i n. revert i. induction n as [|n IH]; intros i;
    cbn [txt_show]; keeps.
Qed.

Lemma keeps_gpio_init port pin mode pull :
  keeps_handle (HAL_GPIO_Init port pin mode pull).
Proof. apply keeps_emit. Qed.

#[local] Hint Resolve keeps_gpio_init : handle.

Lemma keeps_scan_loop n : forall i raw, keeps_handle (scan_loop n i raw).
Proof.
  induction n as [|n IH]; intros i raw; cbn [scan_loop]; keeps.
Qed.

#[local] Hint Resolve keeps_scan_loop : handle.

Lemma keeps_scan_buttons : keeps_handle tm1638_scan_buttons.
Proof. unfold tm1638_scan_buttons. keeps. Qed.

Lemma keeps_delay ms : keeps_handle (HAL_Delay ms).
Proof. apply keeps_emit. Qed.

Lemma wait_press_handle fuel : forall w buttons w1,
  wait_press fuel w = Some (buttons, w1) -> handle w1 = handle w.
Proof.
  induction fuel as [|fuel IH]; intros w buttons w1; cbn [wait_press].
  - discriminate.
  - pose proof (keeps_scan_buttons w) as Hs.
    destruct (tm1638_scan_buttons w) as [b ws]. cbn in Hs.
    destruct (b =? 0).
    + intros H. apply IH in H. now rewrite H, keeps_delay.
    + intros [= _ <-]. exact Hs.
Qed.

Lemma wait_release_handle fuel : forall w w1,
  wait_release fuel w = Some w1 -> handle w1 = handle w.
Proof.
  induction fuel as [|fuel IH]; intros w w1; cbn [wait_release].
  - discriminate.
  - pose proof (keeps_scan_buttons w) as Hs.
    destruct (tm1638_scan_buttons w) as [b ws]. cbn in Hs.
    destruct (negb (b =? 0)).
    + intros H. apply IH in H. now rewrite H, keeps_delay.
    + intros [= <-]. exact Hs.
Qed.

Lemma read_key_blocking_handle fuel w k w' :
  tm1638_read_key_blocking fuel w = Some (k, w') -> handle w' = handle w.
Proof.
  unfold tm1638_read_key_blocking.
  destruct (wait_press fuel w) as [[buttons w1]|] eqn:Hp; [|discriminate].
  destruct (wait_release fuel w1) as [w2|] eqn:Hr; [|discriminate].
  apply wait_press_handle in Hp. apply wait_release_handle in Hr.
  destruct (key_loop 8 0 buttons); intros [= _ <-]; congruence.
Qed.

(** ** The brightness field *)

Lemma land_7_range b : 0 <= Z.land b DISPLAY_BRIGHTNESS_MASK <= 7.
Proof.
  unfold DISPLAY_BRIGHTNESS_MASK.
  assert (E : Z.land b 7 = b mod 8) by apply (Z.land_ones b 3 ltac:(lia)).
  rewrite E. pose proof (Z.mod_pos_bound b 8 ltac:(lia)). lia.
Qed.

Lemma set_brightness_handle b w :
  handle (snd (tm1638_set_brightness b w)) =
  with_brightness (handle w) (Z.min b 7).
Proof. rewrite set_brightness_run. now rewrite keeps_send_command. Qed.

Lemma init_handle b w :
  handle (snd (tm1638_init b w)) =
  with_brightness (handle w) (Z.land b DISPLAY_BRIGHTNESS_MASK).
Proof.
  unfold tm1638_init.
  erewrite bind_run by reflexivity.
  set (w1 := mkWorld _ _ _ _).
  pose proof (keeps_display_clear w1) as Hc.
  destruct (tm1638_display_clear w1) as [[] w2] eqn:E. cbn in Hc.
  erewrite bind_run by exact E.
  erewrite bind_run by reflexivity.
  rewrite set_brightness_handle, Hc. subst w1. cbn.
  pose proof (land_7_range b). unfold with_brightness. cbn.
  f_equal. lia.
Qed.

(** C9: after [tm1638_init b] the brightness field is [b & 0x7] and after
    [tm1638_set_brightness b] it is [min b 7], in both cases within 0..7;
    every public call started with the field in 0..7 leaves it in 0..7;
    and the two paths differ on 8: [tm1638_init 8] stores 0,
    [tm1638_set_brightness 8] stores 7. *)
Theorem brightness_invariant :
  (forall b w, is_u8 b ->
     brightness (handle (snd (tm1638_init b w))) =
       Z.land b DISPLAY_BRIGHTNESS_MASK /\
     brightness_ok (snd (tm1638_init b w))) /\
  (forall b w, is_u8 b ->
     brightness (handle (snd (tm1638_set_brightness b w))) = Z.min b 7 /\
     brightness_ok (snd (tm1638_set_brightness b w))) /\
  (forall c w w', well_typed c -> brightness_ok w ->
     run_call c w = Some w' -> brightness_ok w') /\
  (forall w, brightness (handle (snd (tm1638_init 8 w))) = 0) /\
  (forall w, brightness (handle (snd (tm1638_set_brightness 8 w))) = 7).
Proof.
  assert (Hinit : forall b w,
    brightness (handle (snd (tm1638_init b w))) =
      Z.land b DISPLAY_BRIGHTNESS_MASK /\
    brightness_ok (snd (tm1638_init b w))).
  { intros b w. unfold brightness_ok. rewrite init_handle. cbn.
    split; [reflexivity|apply land_7_range]. }
  assert (Hset : forall b w, is_u8 b ->
    brightness (handle (snd (tm1638_set_brightness b w))) = Z.min b 7 /\
    brightness_ok (snd (tm1638_set_brightness b w))).
  { intros b w Hb. unfold brightness_ok. rewrite set_brightness_handle. cbn.
    unfold is_u8 in Hb. lia. }
  split; [intros b w _; apply Hinit|]. split; [exact Hset|].
  split; [|split].
  - intros c w w' Hc Hw. unfold brightness_ok in *.
    destruct c; cbn [run_call well_typed] in *.
    + intros H. apply (inj Some) in H. subst w'. apply Hinit.
    + intros H. apply (inj Some) in H. subst w'. now apply Hset.
    + intros H. apply (inj Some) in H. subst w'.
      now rewrite keeps_display_clear.
    + intros H. apply (inj Some) in H. subst w'.
      now rewrite keeps_display_char.
    + intros H. apply (inj Some) in H. subst w'.
      now rewrite keeps_display_txt.
    + intros H. apply (inj Some) in H. subst w'. now rewrite keeps_set_led.
    + intros H. apply (inj Some) in H. subst w'.
      now rewrite keeps_set_segment.
    + intros H. apply (inj Some) in H. subst w'.
      now rewrite keeps_scan_buttons.
    + destruct (tm1638_read_key_blocking fuel w) as [[k w2]|] eqn:E;
        [|discriminate].
      intros H. apply (inj Some) in H. subst w'.
      apply read_key_blocking_handle in E. now rewrite E.
  - intros w. now rewrite (proj1 (Hinit 8 w)).
  - intros w. rewrite set_brightness_handle. reflexivity.
Qed.

Lemma brightness_invariant_witness :
  (is_u8 8 /\ well_typed (Call_set_brightness 200) /\
   brightness_ok (power_on released) /\
   run_call (Call_set_brightness 200) (power_on released) =
     Some (snd (tm1638_set_brightness 200 (power_on released)))) /\
  brightness (handle (snd (tm1638_init 8 (power_on released)))) = 0 /\
  brightness (handle (snd (tm1638_set_brightness 8 (power_on released)))) = 7
  /\ brightness_ok (snd (tm1638_set_brightness 200 (power_on released))).
Proof.
  assert (H8 : is_u8 8) by (unfold is_u8; lia).
  assert (Ht : well_typed (Call_set_brightness 200))
    by (unfold well_typed, is_u8; lia).
  assert (Hok : brightness_ok (power_on released))
    by (unfold brightness_ok; cbn; lia).
  destruct brightness_invariant as (Hi & Hs & Hp & _).
  split; [exact (conj H8 (conj Ht (conj Hok eq_refl)))|].
  split; [rewrite (proj1 (Hi 8 (power_on released) H8)); reflexivity|].
  split; [rewrite (proj1 (Hs 8 (power_on released) H8)); reflexivity|].
  exact (Hp (Call_set_brightness 200) (power_on released) _ Ht Hok eq_refl).
Defined.

(** ** Key decoding *)

Lemma land_pow2 raw k :
  0 <= k ->
  Z.land raw (Z.shiftl 1 k) = if Z.testbit raw k then 2 ^ k else 0.
Proof.
  intros Hk. rewrite Z.shiftl_1_l. apply Z.bits_inj'. intros n Hn.
  rewrite Z.land_spec, Z.pow2_bits_eqb by assumption.
  destruct (Z.eqb_spec k n) as [->|Hne].
  - destruct (Z.testbit raw n) eqn:E; cbn.
    + now rewrite Z.pow2_bits_true.
    + now rewrite Z.bits_0.
  - rewrite andb_false_r.
    destruct (Z.testbit raw k).
    + now rewrite Z.pow2_bits_false.
    + now rewrite Z.bits_0.
Qed.

Lemma test_bit raw k :
  0 <= k -> c_true (Z.land raw (Z.shiftl 1 k)) = Z.testbit raw k.
Proof.
  intros Hk. rewrite land_pow2 by assumption. unfold c_true.
  destruct (Z.testbit raw k); [|reflexivity].
  pose proof (Z.pow_pos_nonneg 2 k ltac:(lia) Hk).
  destruct (Z.eqb_spec (2 ^ k) 0); [lia|reflexivity].
Qed.

Lemma decode_keys_mask raw :
  decode_keys raw =
  mask_of (Z.testbit raw 1) (Z.testbit raw 9) (Z.testbit raw 17)
          (Z.testbit raw 25) (Z.testbit raw 5) (Z.testbit raw 13)
          (Z.testbit raw 21) (Z.testbit raw 29).
Proof.
  unfold decode_keys. rewrite !test_bit by lia.
  destruct (Z.testbit raw 1), (Z.testbit raw 9), (Z.testbit raw 17),
    (Z.testbit raw 25), (Z.testbit raw 5), (Z.testbit raw 13),
    (Z.testbit raw 21), (Z.testbit raw 29); reflexivity.
Qed.

Lemma mask_of_bit b0 b1 b2 b3 b4 b5 b6 b7 (i : nat) :
  Z.testbit (mask_of b0 b1 b2 b3 b4 b5 b6 b7) (Z.of_nat i) =
  nth i [b0; b1; b2; b3; b4; b5; b6; b7] false.
Proof.
  destruct (le_lt_dec 8 i) as [Hi|Hi].
  - rewrite nth_overflow by (cbn; lia).
    assert (Hr : 0 <= mask_of b0 b1 b2 b3 b4 b5 b6 b7 < 2 ^ 8).
    { destruct b0, b1, b2, b3, b4, b5, b6, b7; vm_compute;
        split; congruence. }
    rewrite <- (Z.mod_small _ _ Hr).
    apply Z.mod_pow2_bits_high. lia.
  - do 8 (destruct i as [|i]; [
      destruct b0, b1, b2, b3, b4, b5, b6, b7; reflexivity |]).
    lia.
Qed.

Lemma flip_other_bit raw j k :
  0 <= j -> j <> k ->
  Z.testbit (Z.lxor raw (Z.shiftl 1 j)) k = Z.testbit raw k.
Proof.
  intros Hj Hne. rewrite Z.lxor_spec, Z.shiftl_1_l.
  rewrite Z.pow2_bits_false by assumption. apply xorb_false_r.
Qed.

Lemma decode_keys_range raw : 0 <= decode_keys raw <= 255.
Proof.
  rewrite decode_keys_mask.
  destruct (Z.testbit raw 1), (Z.testbit raw 9), (Z.testbit raw 17),
    (Z.testbit raw 25), (Z.testbit raw 5), (Z.testbit raw 13),
    (Z.testbit raw 21), (Z.testbit raw 29); vm_compute;
    split; congruence.
Qed.

Lemma decode_keys_bit raw i :
  (i < 8)%nat ->
  Z.testbit (decode_keys raw) (Z.of_nat i) =
  Z.testbit raw (nth i key_positions 0).
Proof.
  intros Hi. rewrite decode_keys_mask, mask_of_bit.
  do 8 (destruct i as [|i]; [reflexivity|]). lia.
Qed.

Lemma key_positions_range k : In k key_positions -> 0 <= k < 32.
Proof.
  unfold key_positions. cbn. intros H.
  repeat destruct H as [H|H]; try lia.
Qed.

Lemma i8_range z : -128 <= i8 z <= 127.
Proof.
  unfold i8. pose proof (Z.mod_pos_bound (z + 128) 256 ltac:(lia)). lia.
Qed.

Lemma i8_small z : -128 <= z <= 127 -> i8 z = z.
Proof. intros H. unfold i8. rewrite Z.mod_small; lia. Qed.

(** ** The raw scan value *)

Lemma u32_low raw :
  0 <= raw -> (forall k, 32 <= k -> Z.testbit raw k = false) -> u32 raw = raw.
Proof.
  intros H0 Hhigh. unfold u32. apply Z.bits_inj'. intros k Hk.
  rewrite Z.testbit_mod_pow2 by lia.
  destruct (Z.ltb_spec k 32); [reflexivity|]. cbn. symmetry. now apply Hhigh.
Qed.

Lemma scan_loop_run n : forall i raw w,
  0 <= i -> i + Z.of_nat n <= 32 ->
  0 <= raw -> (forall k, i <= k -> Z.testbit raw k = false) ->
  let r := scan_loop n i raw w in
  handle (snd r) = handle w /\ pin_in (snd r) = pin_in w /\
  reads (snd r) = (reads w + n)%nat /\
  0 <= fst r /\
  (forall k, i + Z.of_nat n <= k -> Z.testbit (fst r) k = false) /\
  (forall k, 0 <= k < i -> Z.testbit (fst r) k = Z.testbit raw k) /\
  (forall k, i <= k < i + Z.of_nat n ->
     Z.testbit (fst r) k = sample w (k - i)).
Proof.
  induction n as [|n IH]; intros i raw w Hi Hn H0 Hhigh; cbv zeta.
  - cbn [scan_loop]. unfold ret. cbn [fst snd].
    repeat split; try tauto; try lia;
      intros k Hk; try lia; apply Hhigh; lia.
  - cbn [scan_loop].
    erewrite bind_run by apply clk_low_run.
    erewrite bind_run by reflexivity.
    erewrite bind_run by reflexivity.
    set (s := pin_in _ _).
    set (raw1 := if PinState_eqb s GPIO_PIN_SET then _ else raw).
    erewrite bind_run by apply clk_high_run.
    set (w1 := logged _ _).
    assert (Hs : PinState_eqb s GPIO_PIN_SET = sample w 0).
    { unfold sample. subst s. cbn. now rewrite Nat.add_0_r. }
    assert (Hp : u32 (Z.shiftl 1 i) = 2 ^ i).
    { rewrite Z.shiftl_1_l. apply u32_low; [apply Z.pow_nonneg; lia|].
      intros k Hk. apply Z.pow2_bits_false. lia. }
    assert (Hbits : forall k, 0 <= k ->
      Z.testbit raw1 k = if k =? i then sample w 0 else Z.testbit raw k).
    { intros k Hk. subst raw1. rewrite Hs, Hp.
      destruct (sample w 0).
      - rewrite u32_low.
        + rewrite Z.lor_spec, Z.pow2_bits_eqb by lia.
          destruct (Z.eqb_spec i k) as [->|Hne].
          * rewrite Z.eqb_refl. apply orb_true_r.
          * destruct (Z.eqb_spec k i); [lia|]. apply orb_false_r.
        + apply Z.lor_nonneg. split; [assumption|apply Z.pow_nonneg; lia].
        + intros j Hj. rewrite Z.lor_spec, Hhigh by lia.
          apply Z.pow2_bits_false. lia.
      - destruct (Z.eqb_spec k i) as [->|]; [apply Hhigh; lia|reflexivity]. }
    assert (H1 : 0 <= raw1).
    { subst raw1. destruct (PinState_eqb s GPIO_PIN_SET); [|assumption].
      unfold u32. apply Z.mod_pos_bound. lia. }
    assert (Hi8 : i8 (i + 1) = i + 1) by (apply i8_small; lia).
    rewrite Hi8.
    destruct (IH (i + 1) raw1 w1) as (Ha & Hb & Hc & Hd & He & Hf & Hg);
      try lia.
    { intros k Hk. rewrite Hbits by lia.
      destruct (Z.eqb_spec k i); [lia|]. apply Hhigh. lia. }
    rewrite Ha, Hb, Hc. subst w1. cbn [handle pin_in reads logged].
    split; [reflexivity|]. split; [reflexivity|]. split; [lia|].
    split; [assumption|]. split; [|split].
    + intros k Hk. apply He. lia.
    + intros k Hk. rewrite Hf by lia. rewrite Hbits by lia.
      destruct (Z.eqb_spec k i); [lia|reflexivity].
    + intros k Hk. destruct (Z.eq_dec k i) as [->|Hne].
      * rewrite Hf by lia. rewrite Hbits, Z.eqb_refl by lia.
        now rewrite Z.sub_diag.
      * rewrite Hg by lia. unfold sample. cbn [pin_in reads logged].
        do 2 f_equal. lia.
Qed.

(** The mask [tm1638_scan_buttons] returns is [decode_keys] of the 32-bit
    value whose bit [k] is the level read at the [k]-th clock pulse. *)
Lemma scan_buttons_samples w :
  exists raw, 0 <= raw < 2 ^ 32 /\
    (forall k, 0 <= k < 32 -> Z.testbit raw k = sample w k) /\
    fst (tm1638_scan_buttons w) = decode_keys raw /\
    reads (snd (tm1638_scan_buttons w)) = (reads w + 32)%nat.
Proof.
  unfold tm1638_scan_buttons. cbv zeta.
  erewrite bind_run by apply stb_low_run.
  erewrite bind_run by apply send_data_run.
  erewrite bind_run by reflexivity.
  erewrite bind_run by reflexivity.
  match goal with
  | |- context [bind (scan_loop 32 0 0) _ ?W] => set (w1 := W)
  end.
  destruct (scan_loop_run 32 0 0 w1) as (Ha & Hb & Hc & Hd & He & _ & Hg);
    try lia.
  { intros k _. apply Z.bits_0. }
  destruct (scan_loop 32 0 0 w1) as [raw w2] eqn:E. cbn [fst snd] in *.
  erewrite bind_run by exact E.
  erewrite bind_run by apply stb_high_run.
  erewrite bind_run by reflexivity.
  erewrite bind_run by reflexivity.
  unfold ret. cbn [fst snd].
  exists raw. split; [|split; [|split]].
  - split; [assumption|].
    destruct (Z.lt_ge_cases raw (2 ^ 32)) as [|Hge]; [assumption|exfalso].
    assert (Hl : 32 <= Z.log2 raw) by (apply Z.log2_le_pow2; lia).
    pose proof (Z.bit_log2 raw ltac:(lia)) as Hbit.
    rewrite He in Hbit by lia. discriminate.
  - intros k Hk. rewrite Hg by lia. unfold sample. subst w1.
    cbn [snd pin_in reads logged emit HAL_GPIO_Init]. do 2 f_equal. lia.
  - reflexivity.
  - cbn [reads logged emit HAL_GPIO_Init]. rewrite Hc. subst w1. reflexivity.
Qed.

(** C1: the mask [decode_keys] computes from a raw scan value is a function
    of the raw bits 1, 9, 17, 25, 5, 13, 21 and 29 alone.  Bit [i] of the
    mask, for [i] in 0..7, is the raw bit at the [i]-th of these positions
    and the mask has no higher bit; two raw values that agree on the eight
    positions decode alike; flipping any other bit of the 32 leaves the mask
    as it was; with none of the eight bits set the mask is 0.  For
    [tm1638_scan_buttons] this means: bit [i] of the mask it returns is the
    level DIO had at the clock pulse of the [i]-th position. *)
Theorem decode_keys_positions :
  (forall raw,
     (forall i, (i < 8)%nat ->
        Z.testbit (decode_keys raw) (Z.of_nat i) =
        Z.testbit raw (nth i key_positions 0)) /\
     0 <= decode_keys raw <= 255 /\
     (forall raw',
        (forall k, In k key_positions -> Z.testbit raw' k = Z.testbit raw k)
        -> decode_keys raw' = decode_keys raw) /\
     (forall j, 0 <= j < 32 -> ~ In j key_positions ->
        decode_keys (Z.lxor raw (Z.shiftl 1 j)) = decode_keys raw) /\
     ((forall k, In k key_positions -> Z.testbit raw k = false) ->
        decode_keys raw = 0)) /\
  (forall w i, (i < 8)%nat ->
     Z.testbit (fst (tm1638_scan_buttons w)) (Z.of_nat i) =
     sample w (nth i key_positions 0)).
Proof.
  assert (Hagree : forall a b,
    (forall k, In k key_positions -> Z.testbit a k = Z.testbit b k) ->
    decode_keys a = decode_keys b).
  { intros a b H. rewrite !decode_keys_mask.
    rewrite !H by (unfold key_positions; cbn; tauto). reflexivity. }
  split.
  - intros raw. split; [|split; [|split; [|split]]].
    + intros i Hi. now apply decode_keys_bit.
    + apply decode_keys_range.
    + intros raw' H. now apply Hagree.
    + intros j Hj Hout. apply Hagree. intros k Hk.
      apply flip_other_bit; [lia|]. intros ->. contradiction.
    + intros H. rewrite decode_keys_mask.
      rewrite !H by (unfold key_positions; cbn; tauto). reflexivity.
  - intros w i Hi.
    destruct (scan_buttons_samples w) as (raw & _ & Hbits & -> & _).
    rewrite decode_keys_bit by assumption.
    apply Hbits, key_positions_range.
    apply nth_In. cbn. lia.
Qed.

Lemma decode_keys_positions_witness :
  ((2 < 8)%nat /\ 0 <= 4 < 32 /\ ~ In 4 key_positions) /\
  Z.testbit (decode_keys 0x00020010) 2 = true /\
  decode_keys (Z.lxor 0x00020000 (Z.shiftl 1 4)) = decode_keys 0x00020000 /\
  decode_keys 0x00020000 = 4 /\
  Z.testbit (fst (tm1638_scan_buttons (power_on key_S3))) 2 = true.
Proof.
  assert (H2 : (2 < 8)%nat) by lia.
  assert (H4 : 0 <= 4 < 32) by lia.
  assert (Hout : ~ In 4 key_positions).
  { unfold key_positions. cbn. intros H. repeat destruct H as [H|H]; lia. }
  destruct decode_keys_positions as [Hraw Hscan].
  split; [exact (conj H2 (conj H4 Hout))|].
  split; [|split; [|split]].
  - exact (proj1 (Hraw 0x00020010) 2%nat H2).
  - exact (proj1 (proj2 (proj2 (proj2 (Hraw 0x00020000)))) 4 H4 Hout).
  - reflexivity.
  - exact (Hscan (power_on key_S3) 2%nat H2).
Defined.

(** ** Text layout *)

Lemma segment_code_range c : 0 <= char_to_segment_code c <= 127.
Proof.
  destruct c as [[] [] [] [] [] [] [] []]; vm_compute; split; congruence.
Qed.

Lemma cell_byte_u8 c dot : is_u8 (cell_byte c dot).
Proof.
  unfold is_u8, cell_byte. pose proof (segment_code_range c) as Hc.
  destruct dot; [|lia]. unfold u8.
  pose proof (Z.mod_pos_bound (Z.lor (char_to_segment_code c) 128) 256
                ltac:(lia)). lia.
Qed.

Lemma segment_address_u8 p : is_u8 (segment_address p).
Proof.
  unfold is_u8, segment_address, u8.
  pose proof (Z.mod_pos_bound (CMD_ADDRESS_SET + 2 * (p - 1)) 256 ltac:(lia)).
  lia.
Qed.

Lemma display_char_run p c dot w :
  1 <= p <= 8 ->
  tm1638_display_char p c dot w =
  (tt, logged w (frame_events (handle w) [segment_address p; cell_byte c dot])).
Proof.
  intros Hp. unfold tm1638_display_char.
  assert (Hi : invalid_position p = false).
  { unfold invalid_position. destruct (Z.ltb_spec p 1); [lia|].
    cbn. destruct (Z.gtb_spec p 8); [lia|reflexivity]. }
  rewrite Hi. cbv zeta. fold (cell_byte c dot). now apply set_segment_run.
Qed.

Lemma txt_show_run l n : forall i w,
  0 <= i -> i + Z.of_nat n <= 8 ->
  txt_show n i l w =
  (tt, logged w (concat (map (frame_events (handle w))
                             (map (cell_frame l) (seqZ i (Z.of_nat n)))))).
Proof.
  induction n as [|n IH]; intros i w Hi Hn.
  - cbn. unfold ret. now rewrite logged_nil.
  - cbn [txt_show].
    assert (Hu : u8 (i + 1) = i + 1) by (unfold u8; apply Z.mod_small; lia).
    rewrite Hu.
    erewrite bind_run by (apply display_char_run; lia).
    rewrite IH by lia. rewrite handle_logged, logged_app.
    rewrite Nat2Z.inj_succ, (seqZ_cons i) by lia.
    replace (Z.pred (Z.succ (Z.of_nat n))) with (Z.of_nat n) by lia.
    replace (Z.succ i) with (i + 1) by lia.
    reflexivity.
Qed.

Lemma wire_frames_many tm fs :
  lines_distinct tm -> Forall (Forall is_u8) fs ->
  wire_frames tm (concat (map (frame_events tm) fs)) = fs.
Proof.
  intros Hw Hfs. unfold wire_frames.
  enough (G : forall c,
    in_frame (chip_run tm c (concat (map (frame_events tm) fs))) = in_frame c
      \/ True ->
    frames (chip_run tm c (concat (map (frame_events tm) fs))) =
    frames c ++ fs) by (apply (G idle_chip); auto).
  induction Hfs as [|f rest Hf _ IH]; intros c _.
  - cbn. now rewrite app_nil_r.
  - cbn [map concat]. rewrite chip_run_app.
    destruct (chip_run_frame tm Hw f c Hf) as (_ & Hfr).
    rewrite IH by auto. rewrite Hfr, <- app_assoc. reflexivity.
Qed.

(** What [tm1638_display_txt] sends: one register write per cell, cell 0
    (position 1) first. *)
Lemma display_txt_transmitted str w :
  lines_distinct (handle w) ->
  transmitted (tm1638_display_txt str) w =
  map (cell_frame (txt_parse str)) (seqZ 0 8).
Proof.
  intros Hw. unfold transmitted, tm1638_display_txt.
  erewrite sent_logged by (apply (txt_show_run _ 8); lia).
  apply wire_frames_many; [assumption|].
  apply Forall_map, Forall_forall. intros i _. unfold cell_frame.
  constructor; [apply segment_address_u8|].
  constructor; [apply cell_byte_u8|constructor].
Qed.

Lemma txt_body_str_idx str l :
  0 <= str_idx l <= 127 -> str_idx (txt_body str l) = str_idx l - 1.
Proof.
  intros H. unfold txt_body.
  destruct (Ascii.eqb _ _); cbn; apply i8_small; lia.
Qed.

Lemma txt_loop_exits fuel str : forall l,
  str_idx l < Z.of_nat fuel -> str_idx l <= 127 ->
  txt_cond (txt_loop fuel str l) = false.
Proof.
  induction fuel as [|fuel IH]; intros l Hf Hm; cbn [txt_loop].
  - unfold txt_cond. destruct (Z.leb_spec 0 (str_idx l)); [lia|reflexivity].
  - destruct (txt_cond l) eqn:Hc; [|exact Hc].
    assert (H0 : 0 <= str_idx l).
    { unfold txt_cond in Hc. apply andb_true_iff in Hc as [Hc _]. lia. }
    apply IH; rewrite txt_body_str_idx; lia.
Qed.

(** The 128 passes allowed in [txt_parse] are enough: the loop condition is
    false when [txt_parse] hands over the locals. *)
Lemma txt_parse_exits str : txt_cond (txt_parse str) = false.
Proof.
  unfold txt_parse. apply txt_loop_exits; cbn [str_idx].
  - pose proof (i8_range (i8 (strlen str) - 1)). cbn. lia.
  - apply i8_range.
Qed.

(** C4: for the text "12.34" the parsed buffer is four blanks followed by
    '1', '2', '3', '4'; the only dot flag set is the one of cell 6, the
    cell that holds '3'; and the eight register writes sent to the chip
    carry these cells, the decimal-point bit being set in the byte of
    cell 6 alone. *)
Theorem display_txt_12_34 (w : world) :
  lines_distinct (handle w) ->
  let l := txt_parse (text "12.34") in
  display_buf l = text "    1234" ++ [Ascii.zero] /\
  dots l = [false; false; false; false; false; false; true; false] /\
  char_at (display_buf l) 6 = "3"%char /\
  transmitted (tm1638_display_txt (text "12.34")) w =
    [ [0xC0; 0x00]; [0xC2; 0x00]; [0xC4; 0x00]; [0xC6; 0x00];
      [0xC8; char_to_segment_code "1"];
      [0xCA; char_to_segment_code "2"];
      [0xCC; Z.lor (char_to_segment_code "3") 0x80];
      [0xCE; char_to_segment_code "4"] ].
Proof.
  intros Hw. cbv zeta. repeat split.
  rewrite display_txt_transmitted by assumption. reflexivity.
Qed.

Lemma display_txt_12_34_witness :
  lines_distinct (handle (power_on released)) /\
  transmitted (tm1638_display_txt (text "12.34")) (power_on released) =
    [ [0xC0; 0x00]; [0xC2; 0x00]; [0xC4; 0x00]; [0xC6; 0x00];
      [0xC8; 0x06]; [0xCA; 0x5b]; [0xCC; 0xcf]; [0xCE; 0x66] ].
Proof.
  split; [exact board_wired|].
  exact (proj2 (proj2 (proj2
           (display_txt_12_34 (power_on released) board_wired)))).
Defined.

(** ** Texts without dots *)

Lemma strlen_plain str : plain str -> strlen str = Z.of_nat (length str).
Proof.
  induction 1 as [|c rest [Hc _] _ IH]; [reflexivity|].
  cbn [strlen length]. apply Ascii.eqb_neq in Hc. rewrite Hc, IH. lia.
Qed.

Lemma insert_last_blank {A} (x c : A) (m : nat) (rest : list A) :
  <[m := c]> (repeat x (S m) ++ rest) = repeat x m ++ c :: rest.
Proof.
  induction m as [|m IH]; [reflexivity|].
  change (<[S m := c]> (repeat x (S (S m)) ++ rest)) with
    (x :: <[m := c]> (repeat x (S m) ++ rest)).
  rewrite IH. reflexivity.
Qed.

Section Plain.
Variable str : list ascii.
Hypothesis Hplain : plain str.
Hypothesis Hlen : (length str <= 128)%nat.

Lemma txt_after_step j :
  (j < length str)%nat -> (j < 8)%nat ->
  txt_cond (txt_after str j) = true /\
  txt_body str (txt_after str j) = txt_after str (S j).
Proof.
  intros Hj H8. split.
  - unfold txt_cond, txt_after. cbn [str_idx buf_idx].
    apply andb_true_iff. split; apply Z.leb_le; lia.
  - destruct (lookup_lt_is_Some_2 str (length str - S j)) as [c Hc]; [lia|].
    assert (Hat : char_at str (Z.of_nat (length str) - 1 - Z.of_nat j) = c).
    { unfold char_at.
      replace (Z.to_nat (Z.of_nat (length str) - 1 - Z.of_nat j))
        with (length str - S j)%nat by lia.
      now apply nth_lookup_Some. }
    assert (Hdot : Ascii.eqb c "." = false).
    { apply Ascii.eqb_neq.
      unfold plain in Hplain. rewrite Forall_lookup in Hplain.
      exact (proj2 (Hplain _ _ Hc)). }
    unfold txt_body, txt_after. cbn [str_idx buf_idx display_buf dots].
    rewrite Hat, Hdot. f_equal.
    + rewrite i8_small; lia.
    + rewrite i8_small; lia.
    + replace (Z.to_nat (7 - Z.of_nat j)) with (7 - j)%nat by lia.
      replace (8 - j)%nat with (S (7 - j)) by lia.
      rewrite insert_last_blank.
      replace (8 - S j)%nat with (7 - j)%nat by lia.
      f_equal.
      rewrite (drop_S str c (length str - S j) Hc).
      replace (S (length str - S j)) with (length str - j)%nat by lia.
      reflexivity.
Qed.

Lemma txt_after_stop :
  txt_cond (txt_after str (Nat.min (length str) 8)) = false.
Proof.
  unfold txt_cond, txt_after. cbn [str_idx buf_idx].
  apply andb_false_iff.
  destruct (le_lt_dec (length str) 8).
  - left. apply Z.leb_gt. lia.
  - right. apply Z.leb_gt. lia.
Qed.

Lemma txt_loop_plain fuel : forall j,
  (j <= Nat.min (length str) 8)%nat ->
  (Nat.min (length str) 8 - j <= fuel)%nat ->
  txt_loop fuel str (txt_after str j) =
  txt_after str (Nat.min (length str) 8).
Proof.
  induction fuel as [|fuel IH]; intros j Hj Hf.
  - cbn [txt_loop]. f_equal. lia.
  - cbn [txt_loop].
    destruct (Nat.eq_dec j (Nat.min (length str) 8)) as [->|Hne].
    + now rewrite txt_after_stop.
    + destruct (txt_after_step j) as [Hc Hb]; [lia|lia|].
      rewrite Hc, Hb. apply IH; lia.
Qed.

Lemma txt_parse_plain :
  txt_parse str = txt_after str (Nat.min (length str) 8).
Proof.
  unfold txt_parse. rewrite strlen_plain by assumption.
  assert (Hidx : i8 (i8 (Z.of_nat (length str)) - 1) =
                 Z.of_nat (length str) - 1).
  { destruct (Nat.eq_dec (length str) 128%nat) as [->|].
    - reflexivity.
    - rewrite (i8_small (Z.of_nat (length str))) by lia.
      apply i8_small. lia. }
  rewrite Hidx.
  replace (mkTxt _ _ _ _) with (txt_after str 0).
  - apply txt_loop_plain; lia.
  - unfold txt_after. cbn [repeat Nat.sub]. rewrite Nat.sub_0_r, drop_all.
    f_equal. lia.
Qed.

(** A plain text of 8 to 128 characters shows its last 8 characters. *)
Lemma display_txt_keeps_tail :
  (8 <= length str)%nat ->
  display_buf (txt_parse str) = drop (length str - 8) str ++ [Ascii.zero].
Proof.
  intros H8. rewrite txt_parse_plain.
  replace (Nat.min (length str) 8) with 8%nat by lia. reflexivity.
Qed.

(** A plain text of fewer than 8 characters is padded with blanks on the
    left. *)
Lemma display_txt_pads_left :
  (length str < 8)%nat ->
  display_buf (txt_parse str) =
  repeat " "%char (8 - length str) ++ str ++ [Ascii.zero].
Proof.
  intros H8. rewrite txt_parse_plain.
  replace (Nat.min (length str) 8) with (length str) by lia.
  unfold txt_after. cbn [display_buf]. now rewrite Nat.sub_diag.
Qed.
End Plain.

(** ** Cells the parsing loop does not reach *)

Lemma visible_app a b : visible (a ++ b) = (visible a + visible b)%nat.
Proof. induction a as [|c a IH]; cbn; [reflexivity|]. rewrite IH. lia. Qed.

Lemma visible_take k str : (visible (take k str) <= visible str)%nat.
Proof.
  rewrite <- (take_drop k str) at 2. rewrite visible_app. lia.
Qed.

Lemma strlen_le str : 0 <= strlen str <= Z.of_nat (length str).
Proof.
  induction str as [|c rest IH]; cbn [strlen length]; [lia|].
  destruct (Ascii.eqb c Ascii.zero); lia.
Qed.

Lemma first_index_below len :
  0 <= len -> i8 (i8 len - 1) < len.
Proof.
  intros H. unfold i8.
  pose proof (Z.mod_pos_bound (len + 128) 256 ltac:(lia)).
  pose proof (Z.mod_pos_bound ((len + 128) mod 256 - 128 - 1 + 128) 256
                ltac:(lia)).
  Z.div_mod_to_equations. lia.
Qed.

Lemma txt_body_inv str l :
  txt_cond l = true -> txt_inv str l -> txt_inv str (txt_body str l).
Proof.
  intros Hc (Hb & Hmax & Hs & Hblank & Hvis).
  unfold txt_cond in Hc. apply andb_true_iff in Hc as [Hc1 Hc2].
  apply Z.leb_le in Hc1. apply Z.leb_le in Hc2.
  assert (Hs' : i8 (str_idx l - 1) = str_idx l - 1).
  { apply i8_small. lia. }
  destruct (lookup_lt_is_Some_2 str (Z.to_nat (str_idx l))) as [c Hcx];
    [lia|].
  assert (Htake : take (Z.to_nat (str_idx l + 1)) str =
                  take (Z.to_nat (str_idx l)) str ++ [c]).
  { replace (Z.to_nat (str_idx l + 1)) with (S (Z.to_nat (str_idx l)))
      by lia. now apply take_S_r. }
  assert (Hat : char_at str (str_idx l) = c).
  { unfold char_at. now apply nth_lookup_Some. }
  rewrite Htake, visible_app in Hvis. cbn [visible] in Hvis.
  unfold txt_body. rewrite Hat.
  destruct (Ascii.eqb c ".") eqn:Hdot; unfold txt_inv;
    cbn [str_idx buf_idx display_buf dots]; rewrite Hs';
    replace (str_idx l - 1 + 1) with (str_idx l) by lia.
  - repeat split; try lia. exact Hblank.
  - rewrite i8_small by lia. repeat split; try lia.
    intros i Hi. rewrite <- (Hblank i) by lia. unfold char_at.
    rewrite !nth_lookup, list_lookup_insert_ne by lia. reflexivity.
Qed.

Lemma txt_loop_inv fuel str : forall l,
  txt_inv str l -> txt_inv str (txt_loop fuel str l).
Proof.
  induction fuel as [|fuel IH]; intros l Hl; cbn [txt_loop]; [assumption|].
  destruct (txt_cond l) eqn:Hc; [|assumption].
  apply IH. now apply txt_body_inv.
Qed.

Lemma txt_parse_inv str : txt_inv str (txt_parse str).
Proof.
  unfold txt_parse. apply txt_loop_inv. unfold txt_inv.
  cbn [str_idx buf_idx display_buf].
  pose proof (strlen_le str) as Hlen.
  pose proof (first_index_below (strlen str) (proj1 Hlen)).
  pose proof (i8_range (i8 (strlen str) - 1)).
  pose proof (visible_take (Z.to_nat (i8 (i8 (strlen str) - 1) + 1)) str).
  repeat split; try lia.
  intros i Hi.
  assert (E : i = 0 \/ i = 1 \/ i = 2 \/ i = 3 \/ i = 4 \/ i = 5 \/ i = 6 \/
              i = 7) by lia.
  destruct E as [-> | [-> | [-> | [-> | [-> | [-> | [-> | ->]]]]]]];
    reflexivity.
Qed.

(** Whatever the text, the cells to the left of its visible characters are
    blank: cell [i] is a space whenever [i] plus the number of characters
    that are not dots stays below 8. *)
Lemma display_txt_leading_blank str i :
  0 <= i -> i + Z.of_nat (visible str) < 8 ->
  char_at (display_buf (txt_parse str)) i = " "%char.
Proof.
  intros H0 Hi.
  destruct (txt_parse_inv str) as (Hb & _ & _ & Hblank & Hvis).
  apply Hblank. lia.
Qed.

(** ** Where the layout departs from its documentation *)

(** C3: where the dot flag really lands.  For "1.5" the two characters take
    the last two cells and the dot takes none, but the flag is set on cell
    7, which holds '5', the character after the dot; cell 6, which holds
    '1', the character before the dot, has no flag.  For "15." the dot
    follows the last character and no flag is set at all. *)
Theorem display_txt_dot_cell :
  let l := txt_parse (text "1.5") in
  display_buf l = text "      15" ++ [Ascii.zero] /\
  char_at (display_buf l) 6 = "1"%char /\ flag_at (dots l) 6 = false /\
  char_at (display_buf l) 7 = "5"%char /\ flag_at (dots l) 7 = true /\
  display_buf (txt_parse (text "15.")) = text "      15" ++ [Ascii.zero] /\
  dots (txt_parse (text "15.")) =
    [false; false; false; false; false; false; false; false].
Proof. cbv zeta. repeat split. Qed.

(** C5: the nine-character example is cut on the left, "123456789" showing
    as "23456789"; but for the 129-character dot-free text [overlong] the
    length does not fit the [int8_t] it is stored in, the parsing loop is
    not entered, and all eight cells stay blank although the text ends in
    "23456789". *)
Theorem display_txt_overlong :
  display_buf (txt_parse (text "123456789")) = text "23456789" ++ [Ascii.zero]
  /\ strlen overlong = 129
  /\ forallb (fun c => negb (Ascii.eqb c ".")) overlong = true
  /\ drop 121 overlong = text "23456789"
  /\ i8 (strlen overlong) = -127
  /\ str_idx (txt_parse overlong) = -128
  /\ display_buf (txt_parse overlong) = text "        " ++ [Ascii.zero].
Proof. repeat split. Qed.

(** ** Blocking key read *)

(** C2: with S1 and S2 down together the scan mask is 3, two bits set, and
    [tm1638_read_key_blocking] answers 1, the number of the lowest key,
    where its documentation promises 0. *)
Theorem read_key_blocking_two_keys :
  fst (tm1638_scan_buttons (power_on two_keys)) = 3 /\
  option_map fst (wait_press 2 (power_on two_keys)) = Some 3 /\
  option_map fst (tm1638_read_key_blocking 2 (power_on two_keys)) = Some 1.
Proof. vm_compute. repeat split. Qed.

Lemma scan_buttons_decoded w :
  exists raw, fst (tm1638_scan_buttons w) = decode_keys raw.
Proof.
  unfold tm1638_scan_buttons, bind.
  repeat match goal with
         | |- context [let (_, _) := ?m in _] => destruct m
         end.
  eexists. reflexivity.
Qed.

Lemma wait_press_mask fuel : forall w buttons w1,
  wait_press fuel w = Some (buttons, w1) ->
  buttons <> 0 /\ exists raw, buttons = decode_keys raw.
Proof.
  induction fuel as [|fuel IH]; intros w buttons w1; cbn [wait_press].
  - discriminate.
  - destruct (scan_buttons_decoded w) as [raw Hraw].
    destruct (tm1638_scan_buttons w) as [b ws]. cbn in Hraw.
    destruct (Z.eqb_spec b 0) as [|Hne].
    + apply IH.
    + intros H. apply (inj Some) in H. injection H as <- _.
      split; [assumption|]. now exists raw.
Qed.

Lemma key_check_all : forallb key_check (seqZ 1 255) = true.
Proof. vm_compute. reflexivity. Qed.

Lemma key_loop_lowest buttons :
  0 < buttons <= 255 ->
  exists k, key_loop 8 0 buttons = Some k /\ 1 <= k <= 8 /\
            Z.testbit buttons (k - 1) = true /\
            forall j, 0 <= j < k - 1 -> Z.testbit buttons j = false.
Proof.
  intros Hb.
  assert (Hc : key_check buttons = true).
  { pose proof key_check_all as H. rewrite forallb_forall in H.
    apply H. apply list_elem_of_In, elem_of_seqZ. lia. }
  unfold key_check in Hc.
  destruct (key_loop 8 0 buttons) as [k|]; [|discriminate].
  exists k. rewrite !andb_true_iff in Hc.
  destruct Hc as (((H1 & H8) & Ht) & Hl).
  split; [reflexivity|]. split; [lia|]. split; [assumption|].
  intros j Hj. rewrite forallb_forall in Hl.
  apply negb_true_iff, Hl, list_elem_of_In, elem_of_seqZ. lia.
Qed.

(** The fuel is a cut-off only: a loop that has returned returns the same
    with more fuel. *)
Lemma wait_press_more fuel : forall k w r,
  wait_press fuel w = Some r -> wait_press (fuel + k) w = Some r.
Proof.
  induction fuel as [|fuel IH]; intros k w r; [discriminate|].
  cbn [wait_press Nat.add].
  destruct (tm1638_scan_buttons w) as [b w1].
  destruct (b =? 0); [apply IH|trivial].
Qed.

Lemma wait_release_more fuel : forall k w r,
  wait_release fuel w = Some r -> wait_release (fuel + k) w = Some r.
Proof.
  induction fuel as [|fuel IH]; intros k w r; [discriminate|].
  cbn [wait_release Nat.add].
  destruct (tm1638_scan_buttons w) as [b w1].
  destruct (negb (b =? 0)); [apply IH|trivial].
Qed.

Lemma wait_press_S fuel w :
  wait_press (S fuel) w =
  let (buttons, w1) := tm1638_scan_buttons w in
  if buttons =? 0 then wait_press fuel (snd (HAL_Delay 20 w1))
  else Some (buttons, w1).
Proof. reflexivity. Qed.

Lemma wait_release_S fuel w :
  wait_release (S fuel) w =
  let (b, w1) := tm1638_scan_buttons w in
  if negb (b =? 0) then wait_release fuel (snd (HAL_Delay 20 w1))
  else Some w1.
Proof. reflexivity. Qed.

Lemma wait_press_returns n : forall w,
  (forall k, (k < n)%nat ->
     fst (tm1638_scan_buttons (Nat.iter k next_poll w)) = 0) ->
  fst (tm1638_scan_buttons (Nat.iter n next_poll w)) <> 0 ->
  wait_press (S n) w = Some (tm1638_scan_buttons (Nat.iter n next_poll w)).
Proof.
  induction n as [|n IH]; intros w Hz Hnz.
  - rewrite wait_press_S. change (Nat.iter 0 next_poll w) with w in *.
    destruct (tm1638_scan_buttons w) as [b w1]. cbn [fst] in Hnz.
    destruct (Z.eqb_spec b 0); [contradiction|reflexivity].
  - rewrite Nat.iter_succ_r in *.
    assert (Hz' : forall k, (k < n)%nat ->
      fst (tm1638_scan_buttons (Nat.iter k next_poll (next_poll w))) = 0).
    { intros k Hk. specialize (Hz (S k) ltac:(lia)).
      rewrite Nat.iter_succ_r in Hz. exact Hz. }
    specialize (IH (next_poll w) Hz' Hnz).
    pose proof (Hz 0%nat ltac:(lia)) as H0.
    change (Nat.iter 0 next_poll w) with w in H0.
    rewrite wait_press_S, <- IH. unfold next_poll.
    destruct (tm1638_scan_buttons w) as [b w1]. cbn [fst snd] in *.
    rewrite H0. reflexivity.
Qed.

Lemma wait_release_returns n : forall w,
  (forall k, (k < n)%nat ->
     fst (tm1638_scan_buttons (Nat.iter k next_poll w)) <> 0) ->
  fst (tm1638_scan_buttons (Nat.iter n next_poll w)) = 0 ->
  wait_release (S n) w =
  Some (snd (tm1638_scan_buttons (Nat.iter n next_poll w))).
Proof.
  induction n as [|n IH]; intros w Hnz Hz.
  - rewrite wait_release_S. change (Nat.iter 0 next_poll w) with w in *.
    destruct (tm1638_scan_buttons w) as [b w1]. cbn [fst] in Hz.
    now rewrite Hz.
  - rewrite Nat.iter_succ_r in *.
    assert (Hnz' : forall k, (k < n)%nat ->
      fst (tm1638_scan_buttons (Nat.iter k next_poll (next_poll w))) <> 0).
    { intros k Hk. specialize (Hnz (S k) ltac:(lia)).
      rewrite Nat.iter_succ_r in Hnz. exact Hnz. }
    specialize (IH (next_poll w) Hnz' Hz).
    pose proof (Hnz 0%nat ltac:(lia)) as H0.
    change (Nat.iter 0 next_poll w) with w in H0.
    rewrite wait_release_S, <- IH. unfold next_poll.
    destruct (tm1638_scan_buttons w) as [b w1]. cbn [fst snd] in *.
    destruct (Z.eqb_spec b 0) as [Hb|Hb]; [contradiction|reflexivity].
Qed.

(** A key that goes down at poll [n] and is up again [m] polls later makes
    [tm1638_read_key_blocking] return, with a key number in 1..8, as soon
    as the fuel covers both waits. *)
Lemma read_key_blocking_returns fuel n m w :
  (forall k, (k < n)%nat ->
     fst (tm1638_scan_buttons (Nat.iter k next_poll w)) = 0) ->
  fst (tm1638_scan_buttons (Nat.iter n next_poll w)) <> 0 ->
  let w1 := snd (tm1638_scan_buttons (Nat.iter n next_poll w)) in
  (forall k, (k < m)%nat ->
     fst (tm1638_scan_buttons (Nat.iter k next_poll w1)) <> 0) ->
  fst (tm1638_scan_buttons (Nat.iter m next_poll w1)) = 0 ->
  (n < fuel)%nat -> (m < fuel)%nat ->
  exists k, 1 <= k <= 8 /\
    tm1638_read_key_blocking fuel w =
    Some (k, snd (tm1638_scan_buttons (Nat.iter m next_poll w1))).
Proof.
  intros Hz Hnz w1 Hdown Hup Hn Hm.
  pose proof (wait_press_returns n w Hz Hnz) as Hp.
  apply (wait_press_more _ (fuel - S n)) in Hp.
  replace (S n + (fuel - S n))%nat with fuel in Hp by lia.
  pose proof (wait_release_returns m w1 Hdown Hup) as Hr.
  apply (wait_release_more _ (fuel - S m)) in Hr.
  replace (S m + (fuel - S m))%nat with fuel in Hr by lia.
  unfold tm1638_read_key_blocking. rewrite Hp.
  destruct (scan_buttons_decoded (Nat.iter n next_poll w)) as [raw Hraw].
  subst w1.
  destruct (tm1638_scan_buttons (Nat.iter n next_poll w)) as [b wp].
  cbn [fst snd] in *. rewrite Hr.
  assert (Hb : 0 < b <= 255).
  { pose proof (decode_keys_range raw). lia. }
  destruct (key_loop_lowest b Hb) as (k & Hk & Hrange & _).
  rewrite Hk. exists k. split; [exact Hrange|reflexivity].
Qed.

(** C10: whenever [tm1638_read_key_blocking] returns, what it returns is a
    key number in 1..8.  The press loop is left only with a mask that is
    not 0, the conversion loop returns from its body on the lowest set bit
    of that mask, and so the [return 0] after the loop is not reached. *)
Theorem read_key_blocking_range (fuel : nat) (w w' : world) (k : Z) :
  tm1638_read_key_blocking fuel w = Some (k, w') ->
  1 <= k <= 8 /\
  exists buttons w1,
    wait_press fuel w = Some (buttons, w1) /\ buttons <> 0 /\
    key_loop 8 0 buttons = Some k /\
    Z.testbit buttons (k - 1) = true /\
    (forall j, 0 <= j < k - 1 -> Z.testbit buttons j = false).
Proof.
  unfold tm1638_read_key_blocking.
  destruct (wait_press fuel w) as [[buttons w1]|] eqn:Hp; [|discriminate].
  destruct (wait_release fuel w1) as [w2|]; [|discriminate].
  destruct (wait_press_mask _ _ _ _ Hp) as (Hne & raw & Hraw).
  assert (Hr : 0 < buttons <= 255).
  { pose proof (decode_keys_range raw). lia. }
  destruct (key_loop_lowest buttons Hr) as (k0 & Hk & Hrange & Hbit & Hlow).
  rewrite Hk. intros H. apply (inj Some) in H. injection H as <- _.
  split; [assumption|]. exists buttons, w1. auto.
Qed.

Lemma read_key_blocking_range_witness :
  exists w', tm1638_read_key_blocking 2 (power_on key_S3) = Some (3, w') /\
             1 <= 3 <= 8.
Proof.
  assert (E : option_map fst (tm1638_read_key_blocking 2 (power_on key_S3))
              = Some 3) by (vm_compute; reflexivity).
  destruct (tm1638_read_key_blocking 2 (power_on key_S3)) as [[k w']|] eqn:R;
    [|discriminate E].
  cbn in E. injection E as ->. exists w'. split; [reflexivity|].
  exact (proj1 (read_key_blocking_range 2 (power_on key_S3) w' 3 R)).
Defined.

(** * Further properties of the driver *)

(** ** Serial transport *)

Lemma bits_of_testbit_all :
  forallb (fun d => bool_decide (bits_of 8 d = map (Z.testbit d) (seqZ 0 8)))
          (seqZ 0 256) = true.
Proof. vm_compute. reflexivity. Qed.

Lemma bits_of_testbit d :
  is_u8 d -> bits_of 8 d = map (Z.testbit d) (seqZ 0 8).
Proof.
  intros Hd. pose proof bits_of_testbit_all as H.
  rewrite forallb_forall in H.
  specialize (H d). rewrite bool_decide_eq_true in H. apply H.
  apply list_elem_of_In, elem_of_seqZ. unfold is_u8 in Hd. lia.
Qed.

(** X1: [tm1638_send_data] shifts a byte out least significant bit first:
    its HAL calls are eight clock pulses (clock low, data, clock high), the
    [k]-th of them carrying bit [k] of the byte on DIO; it reads nothing
    and leaves the handle alone. *)
Theorem send_data_lsb_first (data : Z) (w : world) :
  is_u8 data ->
  sent (tm1638_send_data data) w =
    flat_map (fun k => clock_pulse (handle w) (level_of (Z.testbit data k)))
             (seqZ 0 8) /\
  handle (snd (tm1638_send_data data w)) = handle w /\
  reads (snd (tm1638_send_data data w)) = reads w.
Proof.
  intros Hd. rewrite send_data_run. cbn [snd].
  split; [|split; reflexivity].
  rewrite (sent_logged _ _ _ _ (send_data_run data w)).
  unfold byte_events. rewrite bits_of_testbit by assumption.
  reflexivity.
Qed.

Lemma send_data_lsb_first_witness :
  is_u8 0x42 /\
  sent (tm1638_send_data 0x42) (power_on released) =
    clock_pulse board GPIO_PIN_RESET ++ clock_pulse board GPIO_PIN_SET ++
    clock_pulse board GPIO_PIN_RESET ++ clock_pulse board GPIO_PIN_RESET ++
    clock_pulse board GPIO_PIN_RESET ++ clock_pulse board GPIO_PIN_RESET ++
    clock_pulse board GPIO_PIN_SET ++ clock_pulse board GPIO_PIN_RESET.
Proof.
  assert (Hd : is_u8 0x42) by (unfold is_u8; lia).
  split; [exact Hd|].
  exact (proj1 (send_data_lsb_first 0x42 (power_on released) Hd)).
Defined.

(** X2: a command byte survives the wire: for every byte value,
    [tm1638_send_command] makes 26 pin writes from which the chip, shifting
    DIO in on the rising clock edges between the falling and the rising
    edge of STB, gets one frame holding exactly that byte. *)
Theorem send_command_roundtrip (cmd : Z) (w : world) :
  is_u8 cmd -> lines_distinct (handle w) ->
  transmitted (tm1638_send_command cmd) w = [[cmd]] /\
  length (sent (tm1638_send_command cmd) w) = 26%nat.
Proof.
  intros Hc Hw.
  pose proof (sent_logged _ _ _ _ (send_command_run cmd w)) as Hs.
  unfold transmitted. rewrite Hs. split.
  - apply wire_frames_frame; [assumption|].
    constructor; [assumption|constructor].
  - reflexivity.
Qed.

Lemma send_command_roundtrip_witness :
  (is_u8 0xA5 /\ lines_distinct (handle (power_on released))) /\
  transmitted (tm1638_send_command 0xA5) (power_on released) = [[0xA5]].
Proof.
  assert (Hc : is_u8 0xA5) by (unfold is_u8; lia).
  split; [exact (conj Hc board_wired)|].
  exact (proj1 (send_command_roundtrip 0xA5 (power_on released)
                  Hc board_wired)).
Defined.

(** ** Clearing and initialising *)

Lemma repeat_send_run d n : forall w,
  repeat_M n (tm1638_send_data d) w =
  (tt, logged w (concat (map (byte_events (handle w)) (repeat d n)))).
Proof.
  induction n as [|n IH]; intros w.
  - cbn. unfold ret. now rewrite logged_nil.
  - cbn [repeat_M repeat map concat].
    erewrite bind_run by apply send_data_run.
    rewrite IH, logged_app, handle_logged. reflexivity.
Qed.

Lemma display_clear_run w :
  tm1638_display_clear w =
  (tt, logged w (concat (map (frame_events (handle w)) clear_frames))).
Proof.
  unfold tm1638_display_clear.
  erewrite bind_run by apply send_command_run.
  erewrite bind_run by apply stb_low_run.
  erewrite bind_run by apply send_data_run.
  erewrite bind_run by apply repeat_send_run.
  rewrite stb_high_run, !logged_app, !handle_logged. reflexivity.
Qed.

Lemma clear_frames_u8 : Forall (Forall is_u8) clear_frames.
Proof.
  unfold clear_frames, is_u8, CMD_DATA_SET_AUTO_INC, CMD_ADDRESS_SET.
  cbn [repeat]. repeat constructor; lia.
Qed.

(** X3: [tm1638_display_clear] sends two frames: the auto-increment command
    0x40 alone, then the address 0xC0 followed by sixteen zero bytes, one
    for each of the sixteen display registers; the handle is not changed
    and nothing is read. *)
Theorem display_clear_frames (w : world) :
  lines_distinct (handle w) ->
  transmitted tm1638_display_clear w = [[0x40]; 0xC0 :: repeat 0 16] /\
  handle (snd (tm1638_display_clear w)) = handle w /\
  reads (snd (tm1638_display_clear w)) = reads w.
Proof.
  intros Hw. rewrite display_clear_run. cbn [snd].
  split; [|split; reflexivity].
  unfold transmitted.
  rewrite (sent_logged _ _ _ _ (display_clear_run w)).
  apply wire_frames_many; [assumption|apply clear_frames_u8].
Qed.

Lemma display_clear_frames_witness :
  lines_distinct (handle (power_on released)) /\
  transmitted tm1638_display_clear (power_on released) =
    [[0x40]; [0xC0; 0; 0; 0; 0; 0; 0; 0; 0; 0; 0; 0; 0; 0; 0; 0; 0]].
Proof.
  split; [exact board_wired|].
  exact (proj1 (display_clear_frames (power_on released) board_wired)).
Defined.

Lemma init_calls b w :
  calls (snd (tm1638_init b w)) =
  calls w ++
  concat (map (frame_events (handle w))
              (clear_frames ++
               [[Z.lor 0x88 (Z.land b DISPLAY_BRIGHTNESS_MASK)]])).
Proof.
  unfold tm1638_init.
  erewrite bind_run by reflexivity.
  erewrite bind_run by apply display_clear_run.
  erewrite bind_run by reflexivity.
  rewrite set_brightness_run, send_command_run.
  cbn [snd calls logged handle brightness with_brightness
       clk_port clk_pin dio_port dio_pin stb_port stb_pin].
  pose proof (land_7_range b) as Hr.
  replace (Z.min (Z.land b DISPLAY_BRIGHTNESS_MASK) 7)
    with (Z.land b DISPLAY_BRIGHTNESS_MASK) by lia.
  rewrite (proj1 (display_on_command _ Hr)).
  rewrite map_app, concat_app, <- app_assoc. reflexivity.
Qed.

(** X4: [tm1638_init b] sends the clear sequence and then the
    display-control command [0x88 | (b & 7)], three frames in all, and
    leaves [b & 7] in the handle; for [b] in 0..7 that is the command and
    the brightness [tm1638_set_brightness b] gives. *)
Theorem init_frames (b : Z) (w : world) :
  lines_distinct (handle w) ->
  transmitted (tm1638_init b) w =
    [[0x40]; 0xC0 :: repeat 0 16; [Z.lor 0x88 (Z.land b 0x07)]] /\
  handle (snd (tm1638_init b w)) = with_brightness (handle w) (Z.land b 0x07)
  /\ (0 <= b <= 7 ->
      Z.land b 0x07 = b /\
      handle (snd (tm1638_init b w)) =
      handle (snd (tm1638_set_brightness b w))).
Proof.
  intros Hw. split; [|split].
  - unfold transmitted. rewrite (sent_calls _ _ _ (init_calls b w)).
    apply wire_frames_many; [assumption|].
    change (Forall (Forall is_u8)
              (clear_frames ++
               [[Z.lor 0x88 (Z.land b DISPLAY_BRIGHTNESS_MASK)]])).
    apply Forall_app_2; [apply clear_frames_u8|].
    pose proof (land_7_range b) as Hr.
    destruct (display_on_command _ Hr) as (_ & Hc & _).
    constructor; [|constructor].
    constructor; [|constructor]. unfold is_u8. lia.
  - apply init_handle.
  - intros Hb.
    assert (E : Z.land b 7 = b).
    { change 7 with (Z.ones 3). rewrite Z.land_ones by lia.
      apply Z.mod_small. change (2 ^ 3) with 8. lia. }
    split; [exact E|].
    rewrite init_handle, set_brightness_handle.
    unfold DISPLAY_BRIGHTNESS_MASK. rewrite E. f_equal. lia.
Qed.

Lemma init_frames_witness :
  (lines_distinct (handle (power_on released)) /\ 0 <= 5 <= 7) /\
  transmitted (tm1638_init 13) (power_on released) =
    [[0x40]; 0xC0 :: repeat 0 16; [0x8D]] /\
  handle (snd (tm1638_init 5 (power_on released))) =
  handle (snd (tm1638_set_brightness 5 (power_on released))).
Proof.
  assert (H5 : 0 <= 5 <= 7) by lia.
  split; [exact (conj board_wired H5)|]. split.
  - exact (proj1 (init_frames 13 (power_on released) board_wired)).
  - exact (proj2 (proj2 (proj2 (init_frames 5 (power_on released)
                                  board_wired)) H5)).
Defined.

(** ** Characters *)

Lemma cell_byte_bits c dot :
  Z.testbit (cell_byte c dot) 7 = dot /\
  Z.land (cell_byte c dot) 0x7f = char_to_segment_code c.
Proof.
  destruct dot; destruct c as [[] [] [] [] [] [] [] []];
    vm_compute; split; reflexivity.
Qed.

(** X5: for a position in 1..8 [tm1638_display_char] writes one byte to
    the segment register of that position; bit 7 of the byte is the [dot]
    argument and the low seven bits are the font pattern of the character,
    which never uses bit 7 itself. *)
Theorem display_char_byte (p : Z) (c : ascii) (dot : bool) (w : world) :
  1 <= p <= 8 -> lines_distinct (handle w) ->
  exists v,
    transmitted (tm1638_display_char p c dot) w =
      [[CMD_ADDRESS_SET + 2 * (p - 1); v]] /\
    Z.testbit v 7 = dot /\
    Z.land v 0x7f = char_to_segment_code c /\
    0 <= char_to_segment_code c <= 127.
Proof.
  intros Hp Hw. exists (cell_byte c dot).
  destruct (cell_byte_bits c dot) as [Hb Hl].
  split; [|split; [exact Hb|split; [exact Hl|apply segment_code_range]]].
  unfold transmitted.
  rewrite (sent_logged _ _ _ _ (display_char_run p c dot w Hp)).
  rewrite wire_frames_frame; [|assumption|].
  - now rewrite segment_address_valid.
  - constructor; [apply segment_address_u8|].
    constructor; [apply cell_byte_u8|constructor].
Qed.

Lemma display_char_byte_witness :
  (1 <= 2 <= 8 /\ lines_distinct (handle (power_on released))) /\
  exists v,
    transmitted (tm1638_display_char 2 "7" true) (power_on released) =
      [[0xC2; v]] /\
    Z.testbit v 7 = true /\ Z.land v 0x7f = 0x07.
Proof.
  assert (Hp : 1 <= 2 <= 8) by lia.
  split; [exact (conj Hp board_wired)|].
  destruct (display_char_byte 2 "7" true (power_on released) Hp board_wired)
    as (v & Ht & Hb & Hl & _).
  exists v. exact (conj Ht (conj Hb Hl)).
Defined.

(** X6: the sixteen hexadecimal digits in their seven-segment spelling,
    0-9 A b C d E F, have sixteen different patterns, none of them blank:
    a hexadecimal number can be read back from the display. *)
Theorem hex_digits_distinct :
  NoDup (map char_to_segment_code (text "0123456789AbCdEF")) /\
  Forall (fun c => char_to_segment_code c <> 0) (text "0123456789AbCdEF").
Proof.
  split.
  - apply (bool_decide_unpack _). vm_compute. exact I.
  - repeat constructor; vm_compute; discriminate.
Qed.

(** ** Texts *)

(** X7: whatever the text (empty, longer than the display, or too long for
    the length counter), [tm1638_display_txt] sends exactly eight frames
    of two bytes, addressed in order to the segment registers 0xC0, 0xC2,
    ..., 0xCE; no LED register is addressed, nothing is read and the
    handle is unchanged. *)
Theorem display_txt_frames_shape (str : list ascii) (w : world) :
  lines_distinct (handle w) ->
  map (hd 0) (transmitted (tm1638_display_txt str) w) =
    [0xC0; 0xC2; 0xC4; 0xC6; 0xC8; 0xCA; 0xCC; 0xCE] /\
  Forall (fun f => length f = 2%nat)
         (transmitted (tm1638_display_txt str) w) /\
  handle (snd (tm1638_display_txt str w)) = handle w /\
  reads (snd (tm1638_display_txt str w)) = reads w.
Proof.
  intros Hw. rewrite display_txt_transmitted by assumption.
  split; [reflexivity|]. split; [repeat constructor|].
  unfold tm1638_display_txt.
  rewrite (txt_show_run _ 8) by lia. split; reflexivity.
Qed.

Lemma display_txt_frames_shape_witness :
  lines_distinct (handle (power_on released)) /\
  map (hd 0) (transmitted (tm1638_display_txt overlong) (power_on released))
  = [0xC0; 0xC2; 0xC4; 0xC6; 0xC8; 0xCA; 0xCC; 0xCE].
Proof.
  split; [exact board_wired|].
  exact (proj1 (display_txt_frames_shape overlong (power_on released)
                  board_wired)).
Defined.

Lemma txt_body_dots_inv str l :
  txt_cond l = true -> dots_inv l -> dots_inv (txt_body str l).
Proof.
  intros Hc Hd. unfold txt_cond in Hc.
  apply andb_true_iff in Hc as [_ Hb]. apply Z.leb_le in Hb.
  unfold txt_body, dots_inv in *.
  destruct (Ascii.eqb _ _); cbn [buf_idx dots]; intros i Hi.
  - destruct (Z.ltb_spec (buf_idx l) 7); [|apply Hd; lia].
    rewrite <- (Hd i) by lia. unfold flag_at.
    rewrite !nth_lookup, list_lookup_insert_ne by lia. reflexivity.
  - apply Hd. pose proof (i8_range (buf_idx l - 1)).
    destruct (Z.le_gt_cases (buf_idx l) 127).
    + rewrite i8_small in Hi by lia. lia.
    + lia.
Qed.

Lemma txt_loop_dots_inv fuel str : forall l,
  buf_idx l <= 7 -> dots_inv l -> dots_inv (txt_loop fuel str l).
Proof.
  induction fuel as [|fuel IH]; intros l Hb Hl; cbn [txt_loop];
    [assumption|].
  destruct (txt_cond l) eqn:Hc; [|assumption].
  apply IH; [|now apply txt_body_dots_inv].
  unfold txt_cond in Hc. apply andb_true_iff in Hc as [_ H0].
  apply Z.leb_le in H0. unfold txt_body.
  destruct (Ascii.eqb _ _); cbn [buf_idx]; [assumption|].
  rewrite i8_small; lia.
Qed.

Lemma txt_parse_dots_inv str : dots_inv (txt_parse str).
Proof.
  unfold txt_parse. apply txt_loop_dots_inv; cbn [buf_idx]; [lia|].
  unfold dots_inv. cbn [buf_idx dots]. intros i Hi.
  assert (E : i = 0 \/ i = 1 \/ i = 2 \/ i = 3 \/ i = 4 \/ i = 5 \/ i = 6 \/
              i = 7) by lia.
  destruct E as [-> | [-> | [-> | [-> | [-> | [-> | [-> | ->]]]]]]];
    reflexivity.
Qed.

Lemma display_txt_frame_at str w i :
  lines_distinct (handle w) -> 0 <= i < 8 ->
  transmitted (tm1638_display_txt str) w !! Z.to_nat i =
  Some (cell_frame (txt_parse str) i).
Proof.
  intros Hw Hi. rewrite display_txt_transmitted by assumption.
  rewrite list_lookup_fmap, lookup_seqZ_lt by lia.
  cbn. do 2 f_equal. lia.
Qed.

(** X8: the cells to the left of the visible characters are written as
    blanks without decimal point: for every text, and every cell [i] such
    that [i] plus the number of characters that are not dots is below 8,
    the frame for cell [i] is the address of its register followed by
    0x00.  In particular the empty text, and a text of dots only, blank
    the whole display. *)
Theorem display_txt_blank_left (str : list ascii) (i : Z) (w : world) :
  lines_distinct (handle w) ->
  0 <= i -> i + Z.of_nat (visible str) < 8 ->
  transmitted (tm1638_display_txt str) w !! Z.to_nat i =
  Some [CMD_ADDRESS_SET + 2 * i; 0x00].
Proof.
  intros Hw H0 Hi. rewrite display_txt_frame_at by (try assumption; lia).
  unfold cell_frame.
  rewrite display_txt_leading_blank by assumption.
  destruct (txt_parse_inv str) as (Hb & _ & _ & _ & Hvis).
  rewrite (txt_parse_dots_inv str i) by lia.
  rewrite segment_address_valid by lia.
  do 2 f_equal. lia.
Qed.

Lemma display_txt_blank_left_witness :
  (lines_distinct (handle (power_on released)) /\ 0 <= 7 /\
   7 + Z.of_nat (visible (text "...")) < 8) /\
  transmitted (tm1638_display_txt (text "...")) (power_on released) !! 7%nat
  = Some [0xCE; 0x00].
Proof.
  assert (H0 : 0 <= 7) by lia.
  assert (H7 : 7 + Z.of_nat (visible (text "...")) < 8) by (cbn; lia).
  split; [exact (conj board_wired (conj H0 H7))|].
  exact (display_txt_blank_left (text "...") 7 (power_on released)
           board_wired H0 H7).
Defined.

(** X9: [tm1638_display_txt] never lights the decimal point of the
    leftmost digit: for every text, bit 7 of the byte written to the
    segment register of position 1 is clear (the loop sets
    [dots[buf_idx + 1]] only, and [buf_idx] is not negative there). *)
Theorem display_txt_first_cell_no_dot (str : list ascii) (w : world) :
  lines_distinct (handle w) ->
  exists v,
    transmitted (tm1638_display_txt str) w !! 0%nat =
      Some [CMD_ADDRESS_SET; v] /\
    Z.testbit v 7 = false.
Proof.
  intros Hw.
  pose proof (display_txt_frame_at str w 0 Hw ltac:(lia)) as H.
  change (Z.to_nat 0) with 0%nat in H.
  unfold cell_frame in H.
  pose proof (txt_parse_dots_inv str 0 ltac:(lia)) as Hd.
  rewrite Hd in H. eexists. split; [exact H|].
  apply (proj1 (cell_byte_bits _ false)).
Qed.

Lemma display_txt_first_cell_no_dot_witness :
  lines_distinct (handle (power_on released)) /\
  exists v,
    transmitted (tm1638_display_txt (text ".12345678")) (power_on released)
      !! 0%nat = Some [0xC0; v] /\
    Z.testbit v 7 = false.
Proof.
  split; [exact board_wired|].
  exact (display_txt_first_cell_no_dot (text ".12345678")
           (power_on released) board_wired).
Defined.

Lemma right_aligned_length str : length (right_aligned str) = 8%nat.
Proof.
  unfold right_aligned. rewrite length_app, repeat_length, length_drop. lia.
Qed.

Lemma plain_display_buf str :
  plain str -> (length str <= 128)%nat ->
  display_buf (txt_parse str) = right_aligned str ++ [Ascii.zero] /\
  dots (txt_parse str) = repeat false 8.
Proof.
  intros Hp Hl. rewrite (txt_parse_plain str Hp Hl).
  unfold txt_after, right_aligned. cbn [display_buf dots].
  split; [|reflexivity].
  replace (8 - Nat.min (length str) 8)%nat with (8 - length str)%nat by lia.
  replace (length str - Nat.min (length str) 8)%nat
    with (length str - 8)%nat by lia.
  now rewrite <- app_assoc.
Qed.

(** X10: a text without dots of at most 128 characters is shown right
    aligned: the eight segment registers receive, from left to right, the
    font patterns of the last eight characters of the text, with blanks in
    front when the text is shorter, and no decimal point. *)
Theorem display_txt_plain (str : list ascii) (w : world) :
  plain str -> (length str <= 128)%nat -> lines_distinct (handle w) ->
  transmitted (tm1638_display_txt str) w =
    zip_with (fun a c => [a; char_to_segment_code c])
             [0xC0; 0xC2; 0xC4; 0xC6; 0xC8; 0xCA; 0xCC; 0xCE]
             (right_aligned str).
Proof.
  intros Hp Hl Hw. rewrite display_txt_transmitted by assumption.
  destruct (plain_display_buf str Hp Hl) as [Hb Hd].
  pose proof (right_aligned_length str) as Hlen.
  destruct (txt_parse str) as [si bi buf ds]. cbn [display_buf dots] in *.
  subst buf ds.
  destruct (right_aligned str) as [|c0 [|c1 [|c2 [|c3 [|c4 [|c5 [|c6 [|c7
    [|c8 r]]]]]]]]]; try discriminate Hlen.
  reflexivity.
Qed.

Lemma display_txt_plain_witness :
  (plain (text "-12") /\ (length (text "-12") <= 128)%nat /\
   lines_distinct (handle (power_on released))) /\
  transmitted (tm1638_display_txt (text "-12")) (power_on released) =
    [[0xC0; 0]; [0xC2; 0]; [0xC4; 0]; [0xC6; 0]; [0xC8; 0];
     [0xCA; 0x40]; [0xCC; 0x06]; [0xCE; 0x5b]].
Proof.
  assert (Hp : plain (text "-12"))
    by (repeat constructor; discriminate).
  assert (Hl : (length (text "-12") <= 128)%nat) by (cbn; lia).
  split; [exact (conj Hp (conj Hl board_wired))|].
  exact (display_txt_plain (text "-12") (power_on released) Hp Hl
           board_wired).
Defined.

(** ** The parsing loop as a fold *)

Lemma cells_of_body str l :
  cells_of (txt_body str l) = put (char_at str (str_idx l)) (cells_of l).
Proof.
  unfold txt_body, put, cells_of. cbn [c_idx c_buf c_dots].
  destruct (Ascii.eqb _ _); reflexivity.
Qed.

Lemma lay_full rs s : c_idx s < 0 -> lay rs s = s.
Proof.
  intros H. destruct rs as [|c rs]; [reflexivity|]. cbn [lay].
  destruct (Z.leb_spec 0 (c_idx s)); [lia|reflexivity].
Qed.

Lemma lay_app x : forall y s, lay (x ++ y) s = lay y (lay x s).
Proof.
  induction x as [|c x IH]; intros y s; [reflexivity|].
  cbn [app lay]. destruct (Z.leb_spec 0 (c_idx s)).
  - apply IH.
  - symmetry. now apply lay_full.
Qed.

Lemma txt_loop_lay fuel str : forall k l,
  (k <= fuel)%nat -> (k <= length str)%nat -> (k <= 128)%nat ->
  str_idx l = Z.of_nat k - 1 ->
  cells_of (txt_loop fuel str l) = lay (rev (take k str)) (cells_of l).
Proof.
  induction fuel as [|fuel IH]; intros k l Hf Hk Hmax Hs.
  - replace k with 0%nat by lia. reflexivity.
  - cbn [txt_loop]. unfold txt_cond. rewrite Hs.
    destruct k as [|k].
    + reflexivity.
    + destruct (lookup_lt_is_Some_2 str k) as [c Hc]; [lia|].
      rewrite (take_S_r _ _ _ Hc), rev_app_distr. cbn [rev app lay].
      destruct (Z.leb_spec 0 (Z.of_nat (S k) - 1)); [|lia].
      cbn [andb]. change (c_idx (cells_of l)) with (buf_idx l).
      destruct (0 <=? buf_idx l); [|reflexivity].
      assert (Hat : char_at str (str_idx l) = c).
      { unfold char_at. rewrite Hs.
        replace (Z.to_nat (Z.of_nat (S k) - 1)) with k by lia.
        now apply nth_lookup_Some. }
      rewrite (IH k); try lia.
      * now rewrite cells_of_body, Hat.
      * rewrite txt_body_str_idx by lia. lia.
Qed.

Lemma strlen_no_nul str : no_nul str -> strlen str = Z.of_nat (length str).
Proof.
  induction 1 as [|c rest Hc _ IH]; [reflexivity|].
  cbn [strlen length]. apply Ascii.eqb_neq in Hc. rewrite Hc, IH. lia.
Qed.

Lemma txt_parse_fold str :
  no_nul str -> (length str <= 128)%nat ->
  cells_of (txt_parse str) = lay (rev str) blank_cells.
Proof.
  intros Hn Hl. unfold txt_parse. rewrite strlen_no_nul by assumption.
  assert (Hidx : i8 (i8 (Z.of_nat (length str)) - 1) =
                 Z.of_nat (length str) - 1).
  { destruct (Nat.eq_dec (length str) 128%nat) as [->|].
    - reflexivity.
    - rewrite (i8_small (Z.of_nat (length str))) by lia.
      apply i8_small. lia. }
  rewrite Hidx.
  rewrite (txt_loop_lay 128 str (length str)); try lia; [|reflexivity].
  now rewrite firstn_all.
Qed.

(** X11: for a text of at most 128 characters the index loop of
    [tm1638_display_txt], with its [int8_t] counters, is a fold over the
    characters from the last to the first: a dot flags the cell filled
    last (if any), any other character fills the next free cell, and the
    fold stops when no cell is free. *)
Theorem txt_parse_lay (str : list ascii) :
  no_nul str -> (length str <= 128)%nat ->
  cells_of (txt_parse str) = lay (rev str) blank_cells.
Proof. apply txt_parse_fold. Qed.

Lemma txt_parse_lay_witness :
  (no_nul (text "12.34") /\ (length (text "12.34") <= 128)%nat) /\
  cells_of (txt_parse (text "12.34")) = lay (rev (text "12.34")) blank_cells.
Proof.
  assert (Hn : no_nul (text "12.34"))
    by (repeat constructor; discriminate).
  assert (Hl : (length (text "12.34") <= 128)%nat) by (cbn; lia).
  split; [exact (conj Hn Hl)|].
  exact (txt_parse_lay (text "12.34") Hn Hl).
Defined.

(** ** Where a dot goes *)

Lemma plain_no_nul str : plain str -> no_nul str.
Proof.
  intros H. eapply Forall_impl; [exact H|]. cbn. tauto.
Qed.

Lemma plain_app a b : plain a -> plain b -> plain (a ++ b).
Proof. apply Forall_app_2. Qed.

Lemma plain_rev a : plain a -> plain (rev a).
Proof. apply Forall_rev. Qed.

Lemma lay_plain_dots x :
  plain x -> forall s d,
  lay x (mkCells (c_idx s) (c_buf s) d) =
  mkCells (c_idx (lay x s)) (c_buf (lay x s)) d.
Proof.
  induction 1 as [|c x [_ Hc] _ IH]; intros s d; [reflexivity|].
  cbn [lay c_idx]. destruct (0 <=? c_idx s); [|reflexivity].
  apply Ascii.eqb_neq in Hc. unfold put. rewrite Hc. cbn [c_idx c_buf c_dots].
  exact (IH (mkCells _ _ (c_dots s)) d).
Qed.

Lemma lay_plain_flags x i buf d d0 :
  plain x ->
  lay x (mkCells i buf d) =
  mkCells (c_idx (lay x (mkCells i buf d0))) (c_buf (lay x (mkCells i buf d0)))
          d.
Proof. intros Hx. exact (lay_plain_dots x Hx (mkCells i buf d0) d). Qed.

Lemma cells_frames l1 l2 :
  cells_of l1 = cells_of l2 ->
  map (cell_frame l1) (seqZ 0 8) = map (cell_frame l2) (seqZ 0 8).
Proof.
  intros H. apply map_ext. intros i. unfold cell_frame.
  change (display_buf l1) with (c_buf (cells_of l1)).
  change (dots l1) with (c_dots (cells_of l1)).
  now rewrite H.
Qed.

(** X12: where a dot lands.  For a text [a ++ "." ++ b] of at most 128
    characters in which [a] and [b] hold no dot and [b] has 1 to 7
    characters, the display shows the characters of [a ++ b] right aligned
    and exactly one dot flag is set, that of cell [8 - length b]: the cell
    of the first character of [b], the one that follows the dot in the
    text. *)
Theorem display_txt_dot_after (a b : list ascii) :
  plain a -> plain b ->
  (1 <= length b <= 7)%nat -> (length a + length b < 128)%nat ->
  let l := txt_parse (a ++ "."%char :: b) in
  display_buf l = right_aligned (a ++ b) ++ [Ascii.zero] /\
  dots l = <[(8 - length b)%nat := true]> (repeat false 8) /\
  right_aligned (a ++ b) !! (8 - length b)%nat = b !! 0%nat.
Proof.
  intros Ha Hb Hlb Hlen. cbv zeta.
  assert (Hab : plain (a ++ b)) by now apply plain_app.
  assert (Hlab : (length (a ++ b) <= 128)%nat) by (rewrite length_app; lia).
  assert (Hstr : no_nul (a ++ "."%char :: b)).
  { apply Forall_app_2; [now apply plain_no_nul|].
    constructor; [discriminate|now apply plain_no_nul]. }
  assert (Hls : (length (a ++ "."%char :: b) <= 128)%nat)
    by (rewrite length_app; cbn [length]; lia).
  pose proof (txt_parse_fold _ Hstr Hls) as E.
  pose proof (txt_parse_fold _ (plain_no_nul _ Hab) Hlab) as Eab.
  pose proof (txt_parse_fold _ (plain_no_nul _ Hb) ltac:(lia)) as Eb.
  rewrite (txt_parse_plain b Hb ltac:(lia)) in Eb.
  replace (Nat.min (length b) 8) with (length b) in Eb by lia.
  unfold txt_after, cells_of in Eb. cbn [buf_idx display_buf dots] in Eb.
  replace (a ++ "."%char :: b) with (a ++ ["."%char] ++ b) in E
    by reflexivity.
  rewrite !rev_app_distr, <- app_assoc, !lay_app in E.
  rewrite rev_app_distr, lay_app in Eab.
  rewrite <- Eb in E, Eab.
  change (rev ["."%char]) with ["."%char] in E.
  cbn [lay c_idx] in E.
  destruct (Z.leb_spec 0 (7 - Z.of_nat (length b))); [|lia].
  unfold put in E. cbn [Ascii.eqb Bool.eqb c_idx c_buf c_dots] in E.
  destruct (Z.ltb_spec (7 - Z.of_nat (length b)) 7); [|lia].
  rewrite (lay_plain_flags _ _ _ _ (repeat false 8) (plain_rev _ Ha)) in E.
  rewrite <- Eab in E.
  destruct (plain_display_buf _ Hab Hlab) as [Hbuf _].
  split; [|split].
  - change (display_buf (txt_parse (a ++ "."%char :: b)))
      with (c_buf (cells_of (txt_parse (a ++ ["."%char] ++ b)))).
    rewrite E. cbn [c_buf cells_of]. exact Hbuf.
  - change (dots (txt_parse (a ++ "."%char :: b)))
      with (c_dots (cells_of (txt_parse (a ++ ["."%char] ++ b)))).
    rewrite E. cbn [c_dots]. f_equal. lia.
  - unfold right_aligned. rewrite length_app.
    rewrite lookup_app_r by (rewrite repeat_length; lia).
    rewrite repeat_length, lookup_drop.
    rewrite lookup_app_r by lia. f_equal. lia.
Qed.

Lemma display_txt_dot_after_witness :
  (plain (text "12") /\ plain (text "34") /\
   (1 <= length (text "34") <= 7)%nat /\
   (length (text "12") + length (text "34") < 128)%nat) /\
  dots (txt_parse (text "12" ++ "."%char :: text "34")) =
    [false; false; false; false; false; false; true; false] /\
  right_aligned (text "12" ++ text "34") !! 6%nat = Some "3"%char.
Proof.
  assert (Ha : plain (text "12")) by (repeat constructor; discriminate).
  assert (Hb : plain (text "34")) by (repeat constructor; discriminate).
  assert (H1 : (1 <= length (text "34") <= 7)%nat) by (cbn; lia).
  assert (H2 : (length (text "12") + length (text "34") < 128)%nat)
    by (cbn; lia).
  split; [exact (conj Ha (conj Hb (conj H1 H2)))|].
  pose proof (display_txt_dot_after (text "12") (text "34") Ha Hb H1 H2)
    as (_ & Hd & Hc).
  exact (conj Hd Hc).
Defined.

(** X13: a dot at the very end of a text is dropped: for a text of fewer
    than 128 characters, with or without dots, appending "." changes
    nothing of what [tm1638_display_txt] sends. *)
Theorem display_txt_trailing_dot (a : list ascii) (w : world) :
  no_nul a -> (length a < 128)%nat -> lines_distinct (handle w) ->
  transmitted (tm1638_display_txt (a ++ ["."%char])) w =
  transmitted (tm1638_display_txt a) w.
Proof.
  intros Ha Hl Hw. rewrite !display_txt_transmitted by assumption.
  apply cells_frames.
  assert (Hs : no_nul (a ++ ["."%char])).
  { apply Forall_app_2; [assumption|]. constructor; [discriminate|constructor]. }
  rewrite (txt_parse_fold _ Hs) by (rewrite length_app; cbn [length]; lia).
  rewrite (txt_parse_fold _ Ha) by lia.
  rewrite rev_app_distr. reflexivity.
Qed.

Lemma display_txt_trailing_dot_witness :
  (no_nul (text "3.14") /\ (length (text "3.14") < 128)%nat /\
   lines_distinct (handle (power_on released))) /\
  transmitted (tm1638_display_txt (text "3.14" ++ ["."%char]))
              (power_on released) =
  transmitted (tm1638_display_txt (text "3.14")) (power_on released).
Proof.
  assert (Ha : no_nul (text "3.14")) by (repeat constructor; discriminate).
  assert (Hl : (length (text "3.14") < 128)%nat) by (cbn; lia).
  split; [exact (conj Ha (conj Hl board_wired))|].
  exact (display_txt_trailing_dot (text "3.14") (power_on released)
           Ha Hl board_wired).
Defined.

(** ** Bus discipline *)

Lemma bus_run_app tm x : forall b y,
  bus_run tm b (x ++ y) =
  match bus_run tm b x with
  | Some b' => bus_run tm b' y
  | None => None
  end.
Proof.
  induction x as [|e x IH]; intros b y; [reflexivity|].
  cbn [app bus_run]. destruct (bus_step tm b e); [apply IH|reflexivity].
Qed.

Lemma obeys_ret {A} tm (a : A) b : obeys tm b b (ret a).
Proof.
  intros w Hp. split; [exact Hp|]. exists []. cbn.
  now rewrite app_nil_r.
Qed.

Lemma obeys_bind {A B} tm (m : M A) (k : A -> M B) b1 b2 b3 :
  obeys tm b1 b2 m -> (forall a, obeys tm b2 b3 (k a)) ->
  obeys tm b1 b3 (bind m k).
Proof.
  intros Hm Hk w Hw. unfold bind.
  destruct (Hm w Hw) as (Hp & evs & Hc & Hr).
  destruct (m w) as [a w1]. cbn [snd] in *.
  destruct (Hk a w1 Hp) as (Hp' & evs' & Hc' & Hr').
  split; [exact Hp'|]. exists (evs ++ evs'). split.
  - now rewrite Hc', Hc, app_assoc.
  - now rewrite bus_run_app, Hr.
Qed.

(** After [get_tm] the continuation runs on the handle of the world. *)
Lemma obeys_bind_get_tm {B} tm (k : TM1638 -> M B) b1 b2 :
  (forall t, pins t = pins tm -> obeys tm b1 b2 (k t)) ->
  obeys tm b1 b2 (bind get_tm k).
Proof. intros H w Hp. exact (H (handle w) Hp w Hp). Qed.

Lemma obeys_set_brightness_field tm x b :
  obeys tm b b (set_tm_brightness x).
Proof.
  intros w Hp. split; [exact Hp|]. exists []. cbn.
  now rewrite app_nil_r.
Qed.

Section Lines.
Variable tm : TM1638.
Hypothesis wired : lines_distinct tm.
Variable t : TM1638.
Hypothesis same : pins t = pins tm.

Lemma pinned_stb : line_of tm (stb_port t) (stb_pin t) = Some STB.
Proof.
  unfold pins in same. injection same as _ _ _ _ -> ->. apply line_of_stb.
Qed.

Lemma pinned_clk : line_of tm (clk_port t) (clk_pin t) = Some CLK.
Proof.
  unfold pins in same. injection same as -> -> _ _ _ _.
  now apply line_of_clk.
Qed.

Lemma pinned_dio : line_of tm (dio_port t) (dio_pin t) = Some DIO.
Proof.
  unfold pins in same. injection same as _ _ -> -> _ _.
  now apply line_of_dio.
Qed.

Lemma obeys_write_stb_low i c :
  obeys tm (mkBus i false c) (mkBus i true c)
        (HAL_GPIO_WritePin (stb_port t) (stb_pin t) GPIO_PIN_RESET).
Proof.
  intros w Hp. split; [exact Hp|]. eexists. split; [reflexivity|].
  cbn [bus_run bus_step]. now rewrite pinned_stb.
Qed.

Lemma obeys_write_stb_high i :
  obeys tm (mkBus i true false) (mkBus i false false)
        (HAL_GPIO_WritePin (stb_port t) (stb_pin t) GPIO_PIN_SET).
Proof.
  intros w Hp. split; [exact Hp|]. eexists. split; [reflexivity|].
  cbn [bus_run bus_step]. now rewrite pinned_stb.
Qed.

Lemma obeys_write_clk_low i c :
  obeys tm (mkBus i true c) (mkBus i true true)
        (HAL_GPIO_WritePin (clk_port t) (clk_pin t) GPIO_PIN_RESET).
Proof.
  intros w Hp. split; [exact Hp|]. eexists. split; [reflexivity|].
  cbn [bus_run bus_step]. now rewrite pinned_clk.
Qed.

Lemma obeys_write_clk_high i c :
  obeys tm (mkBus i true c) (mkBus i true false)
        (HAL_GPIO_WritePin (clk_port t) (clk_pin t) GPIO_PIN_SET).
Proof.
  intros w Hp. split; [exact Hp|]. eexists. split; [reflexivity|].
  cbn [bus_run bus_step]. now rewrite pinned_clk.
Qed.

Lemma obeys_write_dio s :
  obeys tm (mkBus false true true) (mkBus false true true)
        (HAL_GPIO_WritePin (dio_port t) (dio_pin t) s).
Proof.
  intros w Hp. split; [exact Hp|]. eexists. split; [reflexivity|].
  cbn [bus_run bus_step]. rewrite pinned_dio. now destruct s.
Qed.

Lemma obeys_read_dio :
  obeys tm (mkBus true true true) (mkBus true true true)
        (HAL_GPIO_ReadPin (dio_port t) (dio_pin t)).
Proof.
  intros w Hp. split; [exact Hp|]. eexists. split; [reflexivity|].
  cbn [bus_run bus_step]. now rewrite pinned_dio.
Qed.

Lemma obeys_init_input pull i s c :
  obeys tm (mkBus i s c) (mkBus true s c)
        (HAL_GPIO_Init (dio_port t) (dio_pin t) GPIO_MODE_INPUT pull).
Proof.
  intros w Hp. split; [exact Hp|]. eexists. split; [reflexivity|].
  cbn [bus_run bus_step]. now rewrite pinned_dio.
Qed.

Lemma obeys_init_output pull i s c :
  obeys tm (mkBus i s c) (mkBus false s c)
        (HAL_GPIO_Init (dio_port t) (dio_pin t) GPIO_MODE_OUTPUT_PP pull).
Proof.
  intros w Hp. split; [exact Hp|]. eexists. split; [reflexivity|].
  cbn [bus_run bus_step]. now rewrite pinned_dio.
Qed.
End Lines.

Create HintDb bus.
#[local] Hint Resolve obeys_ret obeys_set_brightness_field
  obeys_write_stb_low obeys_write_stb_high obeys_write_clk_low
  obeys_write_clk_high obeys_write_dio obeys_read_dio obeys_init_input
  obeys_init_output : bus.

Ltac obeying :=
  repeat first
    [ solve [eauto with bus]
    | match goal with
      | |- obeys _ _ _ (bind get_tm _) =>
          apply obeys_bind_get_tm; intros ? ?
      | |- obeys _ _ _ (bind _ _) => eapply obeys_bind; [|intros ?]
      | |- obeys _ _ _ (if ?b then _ else _) => destruct b
      | |- obeys _ _ _ (let _ := _ in _) => cbv zeta
      end ].

Section Discipline.
Variable tm : TM1638.
Hypothesis wired : lines_distinct tm.

Lemma obeys_start i c :
  obeys tm (mkBus i false c) (mkBus i true c) tm1638_start_transmission.
Proof.
  unfold tm1638_start_transmission, tm1638_stb_low. obeying.
Qed.

Lemma obeys_end i :
  obeys tm (mkBus i true false) (mkBus i false false) tm1638_end_transmission.
Proof.
  unfold tm1638_end_transmission, tm1638_stb_high. obeying.
Qed.

Lemma obeys_clk_low i c :
  obeys tm (mkBus i true c) (mkBus i true true) tm1638_clk_low.
Proof. unfold tm1638_clk_low. obeying. Qed.

Lemma obeys_clk_high i c :
  obeys tm (mkBus i true c) (mkBus i true false) tm1638_clk_high.
Proof. unfold tm1638_clk_high. obeying. Qed.

Lemma obeys_sdo_high :
  obeys tm (mkBus false true true) (mkBus false true true) tm1638_sdo_high.
Proof. unfold tm1638_sdo_high. obeying. Qed.

Lemma obeys_sdo_low :
  obeys tm (mkBus false true true) (mkBus false true true) tm1638_sdo_low.
Proof. unfold tm1638_sdo_low. obeying. Qed.

#[local] Hint Resolve obeys_start obeys_end obeys_clk_low obeys_clk_high
  obeys_sdo_high obeys_sdo_low : bus.

Lemma obeys_send_data data :
  obeys tm (mkBus false true false) (mkBus false true false)
        (tm1638_send_data data).
Proof.
  unfold tm1638_send_data. generalize 8%nat. intros n. revert data.
  induction n as [|n IH]; intros data; cbn [send_data_loop]; obeying.
Qed.

#[local] Hint Resolve obeys_send_data : bus.

Lemma obeys_send_command cmd :
  obeys tm (mkBus false false false) (mkBus false false false)
        (tm1638_send_command cmd).
Proof. unfold tm1638_send_command. obeying. Qed.

Lemma obeys_repeat b n body :
  obeys tm b b body -> obeys tm b b (repeat_M n body).
Proof. intros Hb. induction n; cbn [repeat_M]; obeying. Qed.

#[local] Hint Resolve obeys_send_command obeys_repeat : bus.

Lemma obeys_display_clear :
  obeys tm (mkBus false false false) (mkBus false false false)
        tm1638_display_clear.
Proof. unfold tm1638_display_clear. obeying. Qed.

Lemma obeys_set_segment p d :
  obeys tm (mkBus false false false) (mkBus false false false)
        (tm1638_set_segment p d).
Proof. unfold tm1638_set_segment. obeying. Qed.

Lemma obeys_set_led p on :
  obeys tm (mkBus false false false) (mkBus false false false)
        (tm1638_set_led p on).
Proof. unfold tm1638_set_led. obeying. Qed.

Lemma obeys_set_brightness b :
  obeys tm (mkBus false false false) (mkBus false false false)
        (tm1638_set_brightness b).
Proof. unfold tm1638_set_brightness. obeying. Qed.

#[local] Hint Resolve obeys_display_clear obeys_set_segment obeys_set_led
  obeys_set_brightness : bus.

Lemma obeys_init b :
  obeys tm (mkBus false false false) (mkBus false false false)
        (tm1638_init b).
Proof. unfold tm1638_init. obeying. Qed.

Lemma obeys_display_char p c dot :
  obeys tm (mkBus false false false) (mkBus false false false)
        (tm1638_display_char p c dot).
Proof.
  unfold tm1638_display_char.
  destruct (invalid_position p); [apply obeys_ret|].
  cbv zeta. apply obeys_set_segment.
Qed.

#[local] Hint Resolve obeys_display_char : bus.

Lemma obeys_display_txt str :
  obeys tm (mkBus false false false) (mkBus false false false)
        (tm1638_display_txt str).
Proof.
  unfold tm1638_display_txt. generalize (txt_parse str) 0 8%nat.
  intros l i n. revert i.
  induction n as [|n IH]; intros i; cbn [txt_show]; obeying.
Qed.

Lemma obeys_scan_loop n : forall i raw,
  obeys tm (mkBus true true false) (mkBus true true false)
        (scan_loop n i raw).
Proof.
  induction n as [|n IH]; intros i raw; cbn [scan_loop]; obeying.
Qed.

#[local] Hint Resolve obeys_scan_loop : bus.

Lemma obeys_scan_buttons :
  obeys tm (mkBus false false false) (mkBus false false false)
        tm1638_scan_buttons.
Proof. unfold tm1638_scan_buttons. obeying. Qed.

Lemma obeys_delay ms :
  obeys tm (mkBus false false false) (mkBus false false false)
        (HAL_Delay ms).
Proof.
  intros w Hp. split; [exact Hp|]. eexists. split; [reflexivity|].
  reflexivity.
Qed.
End Discipline.

Lemma bus_run_seq tm a b c x y :
  bus_run tm a x = Some b -> bus_run tm b y = Some c ->
  bus_run tm a (x ++ y) = Some c.
Proof. intros Hx Hy. now rewrite bus_run_app, Hx. Qed.

Lemma obeys_wait_press tm fuel :
  lines_distinct tm -> forall w b w1,
  pins (handle w) = pins tm -> wait_press fuel w = Some (b, w1) ->
  pins (handle w1) = pins tm /\
  exists evs, calls w1 = calls w ++ evs /\
              bus_run tm idle_bus evs = Some idle_bus.
Proof.
  intros Hw. induction fuel as [|fuel IH]; intros w b w1 Hp;
    [discriminate|].
  rewrite wait_press_S.
  destruct (obeys_scan_buttons tm Hw w Hp) as (Hp1 & evs & Hc & Hr).
  destruct (tm1638_scan_buttons w) as [b0 ws]. cbn [snd] in *.
  destruct (b0 =? 0).
  - intros H.
    destruct (obeys_delay tm 20 ws Hp1) as (Hp2 & evd & Hcd & Hrd).
    destruct (IH _ _ _ Hp2 H) as (Hp3 & evr & Hcr & Hrr).
    split; [exact Hp3|]. exists (evs ++ evd ++ evr). split.
    + now rewrite Hcr, Hcd, Hc, <- !app_assoc.
    + unfold idle_bus in *.
      apply (bus_run_seq _ _ _ _ _ _ Hr).
      apply (bus_run_seq _ _ _ _ _ _ Hrd). exact Hrr.
  - intros H. apply (inj Some) in H. injection H as _ <-.
    split; [exact Hp1|]. now exists evs.
Qed.

Lemma obeys_wait_release tm fuel :
  lines_distinct tm -> forall w w1,
  pins (handle w) = pins tm -> wait_release fuel w = Some w1 ->
  pins (handle w1) = pins tm /\
  exists evs, calls w1 = calls w ++ evs /\
              bus_run tm idle_bus evs = Some idle_bus.
Proof.
  intros Hw. induction fuel as [|fuel IH]; intros w w1 Hp; [discriminate|].
  rewrite wait_release_S.
  destruct (obeys_scan_buttons tm Hw w Hp) as (Hp1 & evs & Hc & Hr).
  destruct (tm1638_scan_buttons w) as [b0 ws]. cbn [snd] in *.
  destruct (negb (b0 =? 0)).
  - intros H.
    destruct (obeys_delay tm 20 ws Hp1) as (Hp2 & evd & Hcd & Hrd).
    destruct (IH _ _ Hp2 H) as (Hp3 & evr & Hcr & Hrr).
    split; [exact Hp3|]. exists (evs ++ evd ++ evr). split.
    + now rewrite Hcr, Hcd, Hc, <- !app_assoc.
    + unfold idle_bus in *.
      apply (bus_run_seq _ _ _ _ _ _ Hr).
      apply (bus_run_seq _ _ _ _ _ _ Hrd). exact Hrr.
  - intros H. apply (inj Some) in H. subst w1.
    split; [exact Hp1|]. now exists evs.
Qed.

(** X14: every public call keeps the bus discipline.  Started with the bus
    at rest on a handle whose three lines are different pins, a call
    appends HAL calls that open and close its frames in turn, move the
    clock and the data line only inside a frame, change DIO only while the
    clock is low and DIO is an output, sample DIO only while it is an
    input and the clock is low, never sleep inside a frame and touch no
    other pin; when the call returns the bus is at rest again, DIO an
    output, and the pins of the handle are the same. *)
Theorem bus_discipline (c : api_call) (w w' : world) :
  lines_distinct (handle w) -> run_call c w = Some w' ->
  pins (handle w') = pins (handle w) /\
  exists evs, calls w' = calls w ++ evs /\
              bus_run (handle w) idle_bus evs = Some idle_bus.
Proof.
  intros Hw. unfold idle_bus.
  destruct c; cbn [run_call].
  - intros H. apply (inj Some) in H. subst w'.
    now apply (obeys_init (handle w) Hw).
  - intros H. apply (inj Some) in H. subst w'.
    now apply (obeys_set_brightness (handle w) Hw).
  - intros H. apply (inj Some) in H. subst w'.
    now apply (obeys_display_clear (handle w) Hw).
  - intros H. apply (inj Some) in H. subst w'.
    now apply (obeys_display_char (handle w) Hw).
  - intros H. apply (inj Some) in H. subst w'.
    now apply (obeys_display_txt (handle w) Hw).
  - intros H. apply (inj Some) in H. subst w'.
    now apply (obeys_set_led (handle w) Hw).
  - intros H. apply (inj Some) in H. subst w'.
    now apply (obeys_set_segment (handle w) Hw).
  - intros H. apply (inj Some) in H. subst w'.
    now apply (obeys_scan_buttons (handle w) Hw).
  - unfold tm1638_read_key_blocking.
    destruct (wait_press fuel w) as [[buttons w1]|] eqn:Hpr; [|discriminate].
    destruct (wait_release fuel w1) as [w2|] eqn:Hre; [|discriminate].
    destruct (obeys_wait_press _ _ Hw _ _ _ eq_refl Hpr)
      as (Hp1 & ev1 & Hc1 & Hr1).
    destruct (obeys_wait_release _ _ Hw _ _ Hp1 Hre)
      as (Hp2 & ev2 & Hc2 & Hr2).
    intros H.
    assert (E : w' = w2).
    { destruct (key_loop 8 0 buttons); apply (inj Some) in H; congruence. }
    subst w'. split; [exact Hp2|]. exists (ev1 ++ ev2). split.
    + now rewrite Hc2, Hc1, app_assoc.
    + unfold idle_bus in *. exact (bus_run_seq _ _ _ _ _ _ Hr1 Hr2).
Qed.

Lemma bus_discipline_witness :
  (lines_distinct (handle (power_on key_S3)) /\
   run_call Call_scan_buttons (power_on key_S3) =
     Some (snd (tm1638_scan_buttons (power_on key_S3)))) /\
  bus_run board idle_bus
          (calls (snd (tm1638_scan_buttons (power_on key_S3))))
  = Some idle_bus.
Proof.
  split; [exact (conj board_wired eq_refl)|].
  destruct (bus_discipline Call_scan_buttons (power_on key_S3) _
              board_wired eq_refl) as (_ & evs & Hc & Hr).
  rewrite Hc. exact Hr.
Defined.

(** X15: the handle is written by [tm1638_init] and
    [tm1638_set_brightness] alone, and they write its brightness field
    alone: after any other public call the handle is what it was. *)
Theorem handle_kept (c : api_call) (w w' : world) :
  run_call c w = Some w' ->
  handle w' =
  match c with
  | Call_init b =>
      with_brightness (handle w) (Z.land b DISPLAY_BRIGHTNESS_MASK)
  | Call_set_brightness b => with_brightness (handle w) (Z.min b 7)
  | _ => handle w
  end.
Proof.
  destruct c; cbn [run_call].
  - intros H. apply (inj Some) in H. subst w'. apply init_handle.
  - intros H. apply (inj Some) in H. subst w'. apply set_brightness_handle.
  - intros H. apply (inj Some) in H. subst w'. apply keeps_display_clear.
  - intros H. apply (inj Some) in H. subst w'. apply keeps_display_char.
  - intros H. apply (inj Some) in H. subst w'. apply keeps_display_txt.
  - intros H. apply (inj Some) in H. subst w'. apply keeps_set_led.
  - intros H. apply (inj Some) in H. subst w'. apply keeps_set_segment.
  - intros H. apply (inj Some) in H. subst w'. apply keeps_scan_buttons.
  - destruct (tm1638_read_key_blocking fuel w) as [[k w2]|] eqn:E;
      [|discriminate].
    intros H. apply (inj Some) in H. subst w'.
    now apply read_key_blocking_handle in E.
Qed.

Lemma handle_kept_witness :
  run_call (Call_display_txt (text "1.5")) (power_on released) =
    Some (snd (tm1638_display_txt (text "1.5") (power_on released))) /\
  handle (snd (tm1638_display_txt (text "1.5") (power_on released))) = board.
Proof.
  split; [reflexivity|].
  exact (handle_kept (Call_display_txt (text "1.5")) (power_on released) _
           eq_refl).
Defined.

(** ** Polling *)

Lemma scan_buttons_world w :
  pin_in (snd (tm1638_scan_buttons w)) = pin_in w /\
  reads (snd (tm1638_scan_buttons w)) = (reads w + 32)%nat.
Proof.
  split; [|now destruct (scan_buttons_samples w) as (raw & _ & _ & _ & Hr)].
  unfold tm1638_scan_buttons. cbv zeta.
  erewrite bind_run by apply stb_low_run.
  erewrite bind_run by apply send_data_run.
  erewrite bind_run by reflexivity.
  erewrite bind_run by reflexivity.
  match goal with
  | |- context [bind (scan_loop 32 0 0) _ ?W] => set (w1 := W)
  end.
  destruct (scan_loop_run 32 0 0 w1) as (_ & Hb & _); try lia.
  { intros k _. apply Z.bits_0. }
  destruct (scan_loop 32 0 0 w1) as [raw w2] eqn:E. cbn [fst snd] in Hb.
  erewrite bind_run by exact E.
  erewrite bind_run by apply stb_high_run.
  erewrite bind_run by reflexivity.
  erewrite bind_run by reflexivity.
  unfold ret. cbn [snd pin_in logged emit HAL_GPIO_Init].
  rewrite Hb. reflexivity.
Qed.

Lemma pin_in_logged w evs : pin_in (logged w evs) = pin_in w.
Proof. reflexivity. Qed.

Lemma reads_logged w evs : reads (logged w evs) = reads w.
Proof. reflexivity. Qed.

Lemma delay_run ms w : snd (HAL_Delay ms w) = logged w [Delay ms].
Proof. reflexivity. Qed.

Lemma next_poll_world w :
  pin_in (next_poll w) = pin_in w /\ reads (next_poll w) = (reads w + 32)%nat.
Proof.
  destruct (scan_buttons_world w) as [Hp Hr].
  unfold next_poll. rewrite delay_run, pin_in_logged, reads_logged.
  split; [exact Hp|exact Hr].
Qed.

Lemma poll_world n : forall w,
  pin_in (Nat.iter n next_poll w) = pin_in w /\
  reads (Nat.iter n next_poll w) = (reads w + 32 * n)%nat.
Proof.
  induction n as [|n IH]; intros w.
  - split; [reflexivity|]. change (Nat.iter 0 next_poll w) with w. lia.
  - rewrite Nat.iter_succ_r.
    destruct (IH (next_poll w)) as [Hp Hr].
    destruct (next_poll_world w) as [Hp1 Hr1].
    rewrite Hp, Hr, Hp1, Hr1. split; [reflexivity|lia].
Qed.

(** X16: successive scans read successive windows of the DIO line: the
    scan made at the [n]-th poll of a polling loop takes the samples
    [32 n] to [32 n + 31] that follow the first one, and bit [i] of its
    mask is the level of the sample at the [i]-th key position of that
    window; earlier scans leave no trace in it. *)
Theorem scan_windows (n i : nat) (w : world) :
  (i < 8)%nat ->
  Z.testbit (fst (tm1638_scan_buttons (Nat.iter n next_poll w)))
            (Z.of_nat i) =
  PinState_eqb
    (pin_in w (reads w + 32 * n + Z.to_nat (nth i key_positions 0)))
    GPIO_PIN_SET.
Proof.
  intros Hi.
  destruct (scan_buttons_samples (Nat.iter n next_poll w))
    as (raw & _ & Hbits & -> & _).
  rewrite decode_keys_bit by assumption.
  rewrite Hbits by (apply key_positions_range, nth_In; cbn; lia).
  unfold sample. destruct (poll_world n w) as [-> ->]. reflexivity.
Qed.

Lemma scan_windows_witness :
  (2 < 8)%nat /\
  Z.testbit (fst (tm1638_scan_buttons (next_poll (power_on key_S3)))) 2 =
  false.
Proof.
  assert (H2 : (2 < 8)%nat) by lia.
  split; [exact H2|].
  exact (scan_windows 1 2 (power_on key_S3) H2).
Defined.

(** X17: which key [tm1638_read_key_blocking] reports.  If the scans of
    the polls before the [n]-th are 0, the [n]-th is not, the key is still
    seen at the [m] polls that follow and is gone at the next one, then
    with fuel above [n] and [m] the call returns the number of the lowest
    key of the [n]-th scan, whatever the later scans showed, after
    [n + m + 2] scans of 32 samples each. *)
Theorem read_key_blocking_first_press (fuel n m : nat) (w : world) :
  (forall k, (k < n)%nat ->
     fst (tm1638_scan_buttons (Nat.iter k next_poll w)) = 0) ->
  fst (tm1638_scan_buttons (Nat.iter n next_poll w)) <> 0 ->
  let mask := fst (tm1638_scan_buttons (Nat.iter n next_poll w)) in
  let w1 := snd (tm1638_scan_buttons (Nat.iter n next_poll w)) in
  (forall k, (k < m)%nat ->
     fst (tm1638_scan_buttons (Nat.iter k next_poll w1)) <> 0) ->
  fst (tm1638_scan_buttons (Nat.iter m next_poll w1)) = 0 ->
  (n < fuel)%nat -> (m < fuel)%nat ->
  exists k w',
    tm1638_read_key_blocking fuel w = Some (k, w') /\
    1 <= k <= 8 /\
    Z.testbit mask (k - 1) = true /\
    (forall j, 0 <= j < k - 1 -> Z.testbit mask j = false) /\
    reads w' = (reads w + 32 * (n + m + 2))%nat.
Proof.
  intros Hz Hnz mask w1 Hdown Hup Hn Hm.
  pose proof (wait_press_returns n w Hz Hnz) as Hp.
  apply (wait_press_more _ (fuel - S n)) in Hp.
  replace (S n + (fuel - S n))%nat with fuel in Hp by lia.
  pose proof (wait_release_returns m w1 Hdown Hup) as Hr.
  apply (wait_release_more _ (fuel - S m)) in Hr.
  replace (S m + (fuel - S m))%nat with fuel in Hr by lia.
  assert (Hreads :
    reads (snd (tm1638_scan_buttons (Nat.iter m next_poll w1))) =
    (reads w + 32 * (n + m + 2))%nat).
  { rewrite (proj2 (scan_buttons_world _)), (proj2 (poll_world m w1)).
    subst w1.
    rewrite (proj2 (scan_buttons_world _)), (proj2 (poll_world n w)). lia. }
  unfold tm1638_read_key_blocking. rewrite Hp.
  destruct (scan_buttons_decoded (Nat.iter n next_poll w)) as [raw Hraw].
  subst mask w1.
  destruct (tm1638_scan_buttons (Nat.iter n next_poll w)) as [b wp].
  cbn [fst snd] in *. rewrite Hr.
  assert (Hb : 0 < b <= 255).
  { pose proof (decode_keys_range raw). lia. }
  destruct (key_loop_lowest b Hb) as (k & Hk & Hrange & Hbit & Hlow).
  rewrite Hk. exists k. eexists. split; [reflexivity|].
  split; [exact Hrange|]. split; [exact Hbit|]. split; [exact Hlow|].
  exact Hreads.
Qed.

Lemma read_key_blocking_first_press_witness :
  exists k w',
    tm1638_read_key_blocking 2 (power_on key_S3) = Some (k, w') /\
    1 <= k <= 8 /\ reads w' = 64%nat.
Proof.
  assert (H0 : forall k, (k < 0)%nat ->
    fst (tm1638_scan_buttons (Nat.iter k next_poll (power_on key_S3))) = 0)
    by (intros k Hk; exfalso; lia).
  assert (H1 :
    fst (tm1638_scan_buttons (Nat.iter 0 next_poll (power_on key_S3))) <> 0)
    by (vm_compute; discriminate).
  assert (H2 : forall k, (k < 0)%nat ->
    fst (tm1638_scan_buttons
           (Nat.iter k next_poll
              (snd (tm1638_scan_buttons
                      (Nat.iter 0 next_poll (power_on key_S3)))))) <> 0)
    by (intros k Hk; exfalso; lia).
  assert (H3 :
    fst (tm1638_scan_buttons
           (Nat.iter 0 next_poll
              (snd (tm1638_scan_buttons
                      (Nat.iter 0 next_poll (power_on key_S3)))))) = 0)
    by (vm_compute; reflexivity).
  destruct (read_key_blocking_first_press 2 0 0 (power_on key_S3)
              H0 H1 H2 H3 ltac:(lia) ltac:(lia))
    as (k & w' & H & Hr & _ & _ & Hreads).
  exists k, w'. split; [exact H|]. split; [exact Hr|exact Hreads].
Defined.

(** ** Texts longer than the length counter *)

Lemma txt_loop_not_entered fuel str l :
  str_idx l < 0 -> txt_loop fuel str l = l.
Proof.
  intros H. destruct fuel as [|fuel]; [reflexivity|]. cbn [txt_loop].
  unfold txt_cond. destruct (Z.leb_spec 0 (str_idx l)); [lia|reflexivity].
Qed.

Lemma i8_129_256 len : 129 <= len <= 256 -> i8 (i8 len - 1) = len - 257.
Proof.
  intros H.
  assert (E : i8 len = len - 256).
  { unfold i8. replace (len + 128) with (len - 128 + 1 * 256) by lia.
    rewrite Z.mod_add by lia. rewrite Z.mod_small; lia. }
  rewrite E. rewrite i8_small; lia.
Qed.

(** X18: a text of 129 to 256 characters blanks the display: its length
    does not fit the [int8_t] it is stored in, the start index comes out
    negative, the parsing loop is not entered, and all eight segment
    registers are written with 0x00. *)
Theorem display_txt_too_long (str : list ascii) (w : world) :
  no_nul str -> (129 <= length str <= 256)%nat ->
  lines_distinct (handle w) ->
  transmitted (tm1638_display_txt str) w =
    [[0xC0; 0]; [0xC2; 0]; [0xC4; 0]; [0xC6; 0];
     [0xC8; 0]; [0xCA; 0]; [0xCC; 0]; [0xCE; 0]].
Proof.
  intros Hn Hl Hw. rewrite display_txt_transmitted by assumption.
  assert (E : txt_parse str =
    mkTxt (Z.of_nat (length str) - 257) 7
          [" "; " "; " "; " "; " "; " "; " "; " "; Ascii.zero]%char
          [false; false; false; false; false; false; false; false]).
  { unfold txt_parse. rewrite strlen_no_nul by assumption.
    rewrite i8_129_256 by lia.
    apply txt_loop_not_entered. cbn [str_idx]. lia. }
  rewrite E. reflexivity.
Qed.

Lemma display_txt_too_long_witness :
  (no_nul overlong /\ (129 <= length overlong <= 256)%nat /\
   lines_distinct (handle (power_on released))) /\
  transmitted (tm1638_display_txt overlong) (power_on released) =
    [[0xC0; 0]; [0xC2; 0]; [0xC4; 0]; [0xC6; 0];
     [0xC8; 0]; [0xCA; 0]; [0xCC; 0]; [0xCE; 0]].
Proof.
  assert (Hn : no_nul overlong).
  { apply Forall_forall. intros c Hc.
    assert (Hb : forallb (fun c => negb (Ascii.eqb c Ascii.zero)) overlong
                 = true) by (vm_compute; reflexivity).
    rewrite forallb_forall in Hb. apply list_elem_of_In in Hc.
    specialize (Hb c Hc). apply negb_true_iff in Hb.
    now apply Ascii.eqb_neq. }
  assert (Hl : (129 <= length overlong <= 256)%nat)
    by (vm_compute; split; repeat constructor).
  split; [exact (conj Hn (conj Hl board_wired))|].
  exact (display_txt_too_long overlong (power_on released) Hn Hl
           board_wired).
Defined.
